(** * Iroha chat companion: the state logic of [frontend/app/page.tsx]

    The page is one React component, [Home].  Its state is a handful of
    [useState] cells; its behaviour is a set of event handlers, some of which
    ([sendChat], [deleteSession], [loadSession], [loadSessions], [loadConfig])
    suspend at [await fetch(...)] and continue when the network answers.

    The embedding follows the component as it is written:
    - the [useState] cells form the record [State], with one setter per cell;
    - a handler is a function on the [World]: the state, the requests sent so
      far, and the handlers suspended at an [await];
    - a suspended handler is a [Task] that remembers the values its closure
      captured; [deliver] resumes it with the answer of the network;
    - what the user and the network can do is an [Event]; [step] dispatches an
      event the way the rendered elements do ([disabled] attributes included).

    Strings are UTF-8 texts.  Numbers that are identifiers or counts are
    integers; the speech speed is an exact rational.  The cell [darkMode] is
    modelled apart from the others, in [Theme].  The cell [showSidebar], which
    drives the presentation only, and the effects on the document (scrolling,
    audio playback, the console) are left out. *)

From stdpp Require Import base option list strings gmap pretty.
From Stdlib Require Import Ascii QArith.

Close Scope Q_scope.
Open Scope string_scope.

(** ** Strings: [String.prototype.trim] *)

Module JsString.

Definition code (n : nat) (c : ascii) : bool := Nat.eqb (Ascii.nat_of_ascii c) n.

(** White space and line terminators of ECMAScript that take one byte:
    TAB, LF, VT, FF, CR and SP. *)
Definition ws1 (a : ascii) : bool :=
  code 9 a || code 10 a || code 11 a || code 12 a || code 13 a || code 32 a.

(** ... two bytes: U+00A0 (no-break space). *)
Definition ws2 (a b : ascii) : bool := code 194 a && code 160 b.

(** ... three bytes: U+1680, U+2000 to U+200A, U+2028, U+2029, U+202F,
    U+205F, U+3000 and U+FEFF. *)
Definition ws3 (a b c : ascii) : bool :=
  (code 225 a && code 154 b && code 128 c)
  || (code 226 a && code 128 b
      && (let n := Ascii.nat_of_ascii c in
          (Nat.leb 128 n && Nat.leb n 138) || code 168 c || code 169 c || code 175 c))
  || (code 226 a && code 129 b && code 159 c)
  || (code 227 a && code 128 b && code 128 c)
  || (code 239 a && code 187 b && code 191 c).

(** Strips the white space at the head of a byte sequence.  The three
    predicates are parameters so that the same function, on the reversed
    sequence, strips the tail. *)
Fixpoint strip (w1 : ascii -> bool) (w2 : ascii -> ascii -> bool)
    (w3 : ascii -> ascii -> ascii -> bool) (s : string) : string :=
  match s with
  | EmptyString => s
  | String a t1 =>
      if w1 a then strip w1 w2 w3 t1 else
      match t1 with
      | EmptyString => s
      | String b t2 =>
          if w2 a b then strip w1 w2 w3 t2 else
          match t2 with
          | EmptyString => s
          | String c t3 => if w3 a b c then strip w1 w2 w3 t3 else s
          end
      end
  end.

Definition trimStart (s : string) : string := strip ws1 ws2 ws3 s.

Definition trimEnd (s : string) : string :=
  String.rev
    (strip ws1 (fun a b => ws2 b a) (fun a b c => ws3 c b a) (String.rev s)).

Definition trim (s : string) : string := trimEnd (trimStart s).

(** Truthiness: the empty string is the only falsy string, and 0 the only
    falsy integer. *)
Definition truthy (s : string) : bool := negb (String.eqb s "").

Definition truthy_num (n : Z) : bool := negb (Z.eqb n 0).

(** A byte sequence made of pieces of one, two or three bytes that the
    predicates accept. *)
Inductive Tiled (w1 : ascii -> bool) (w2 : ascii -> ascii -> bool)
    (w3 : ascii -> ascii -> ascii -> bool) : string -> Prop :=
| Tiled_empty : Tiled w1 w2 w3 ""
| Tiled_1 a s : w1 a = true -> Tiled w1 w2 w3 s -> Tiled w1 w2 w3 (String a s)
| Tiled_2 a b s :
    w2 a b = true -> Tiled w1 w2 w3 s -> Tiled w1 w2 w3 (String a (String b s))
| Tiled_3 a b c s :
    w3 a b c = true -> Tiled w1 w2 w3 s ->
    Tiled w1 w2 w3 (String a (String b (String c s))).

(** A text that is empty or made of white space only. *)
Definition Blank (s : string) : Prop := Tiled ws1 ws2 ws3 s.

End JsString.

(** ** Types of the page *)

Inductive Role := user | assistant.

(** [ChatMsg]; the optional fields are [option]s.  The field [id] of the source
    is [msg_id] here, [id] being the identity function in Rocq. *)
Record ChatMsg := mkChatMsg {
  role : Role;
  content : string;
  msg_id : option Z;
  reactions : option (list string);
  bookmarked : option bool
}.

(** An object literal [{ role, content }]. *)
Definition msg (r : Role) (c : string) : ChatMsg := mkChatMsg r c None None None.

Record VoiceConfig := mkVoiceConfig {
  cfg_voices : gmap string string;
  default_voice : option string;
  recommended : string;
  speed_min : Q;
  speed_max : Q;
  default_speed : option Q
}.

Record Session := mkSession {
  s_id : Z;
  title : string;
  persona : string;
  created_at : string;
  updated_at : string;
  message_count : Z
}.

#[global] Instance Role_eq_dec : EqDecision Role.
Proof. solve_decision. Defined.

(** ** The [useState] cells of [Home] (and of [useVoiceInput]) *)

Record State := mkState {
  message : string;
  history : list ChatMsg;
  status : string;
  loading : bool;
  showReactionPopup : option nat;
  voices : gmap string string;
  voice : string;
  speed : Q;
  textOnly : bool;
  audioUrl : option string;
  sessions : list Session;
  currentSessionId : option Z;
  isListening : bool;
  transcript : string;
  isSupported : bool
}.

Definition setMessage (v : string) (st : State) : State :=
  let 'mkState _ h s l p vs vo sp t a ss c il tr su := st in
  mkState v h s l p vs vo sp t a ss c il tr su.

(** [setHistory] with an updater function, as in [setHistory((h) => ...)];
    [setHistory(v)] is [setHistory (fun _ => v)]. *)
Definition setHistory (f : list ChatMsg -> list ChatMsg) (st : State) : State :=
  let 'mkState m h s l p vs vo sp t a ss c il tr su := st in
  mkState m (f h) s l p vs vo sp t a ss c il tr su.

Definition setStatus (v : string) (st : State) : State :=
  let 'mkState m h _ l p vs vo sp t a ss c il tr su := st in
  mkState m h v l p vs vo sp t a ss c il tr su.

Definition setLoading (v : bool) (st : State) : State :=
  let 'mkState m h s _ p vs vo sp t a ss c il tr su := st in
  mkState m h s v p vs vo sp t a ss c il tr su.

Definition setShowReactionPopup (v : option nat) (st : State) : State :=
  let 'mkState m h s l _ vs vo sp t a ss c il tr su := st in
  mkState m h s l v vs vo sp t a ss c il tr su.

Definition setVoices (v : gmap string string) (st : State) : State :=
  let 'mkState m h s l p _ vo sp t a ss c il tr su := st in
  mkState m h s l p v vo sp t a ss c il tr su.

Definition setVoice (v : string) (st : State) : State :=
  let 'mkState m h s l p vs _ sp t a ss c il tr su := st in
  mkState m h s l p vs v sp t a ss c il tr su.

Definition setSpeed (v : Q) (st : State) : State :=
  let 'mkState m h s l p vs vo _ t a ss c il tr su := st in
  mkState m h s l p vs vo v t a ss c il tr su.

Definition setTextOnly (v : bool) (st : State) : State :=
  let 'mkState m h s l p vs vo sp _ a ss c il tr su := st in
  mkState m h s l p vs vo sp v a ss c il tr su.

Definition setAudioUrl (v : option string) (st : State) : State :=
  let 'mkState m h s l p vs vo sp t _ ss c il tr su := st in
  mkState m h s l p vs vo sp t v ss c il tr su.

Definition setSessions (v : list Session) (st : State) : State :=
  let 'mkState m h s l p vs vo sp t a _ c il tr su := st in
  mkState m h s l p vs vo sp t a v c il tr su.

Definition setCurrentSessionId (v : option Z) (st : State) : State :=
  let 'mkState m h s l p vs vo sp t a ss _ il tr su := st in
  mkState m h s l p vs vo sp t a ss v il tr su.

Definition setIsListening (v : bool) (st : State) : State :=
  let 'mkState m h s l p vs vo sp t a ss c _ tr su := st in
  mkState m h s l p vs vo sp t a ss c v tr su.

Definition setTranscript (v : string) (st : State) : State :=
  let 'mkState m h s l p vs vo sp t a ss c il _ su := st in
  mkState m h s l p vs vo sp t a ss c il v su.

Definition setIsSupported (v : bool) (st : State) : State :=
  let 'mkState m h s l p vs vo sp t a ss c il tr _ := st in
  mkState m h s l p vs vo sp t a ss c il tr v.

(** The state of the first render: the arguments of the [useState] calls. *)
Definition initialState : State :=
  mkState "" [] "Ready" false None ∅ "Arista-PlayAI" (105 # 100)%Q false None
          [] None false "" false.

(** ** Reactions and bookmarks *)

Definition availableReactions : list string :=
  ["❤️"; "👍"; "😊"; "🎉"; "💡"; "📌"].

(** [currentReactions.includes(emoji)] *)
Definition includes (emoji : string) (l : list string) : bool :=
  existsb (String.eqb emoji) l.

(** The object spread [{ ...msg, reactions: v }]. *)
Definition with_reactions (v : list string) (m : ChatMsg) : ChatMsg :=
  mkChatMsg (role m) (content m) (msg_id m) (Some v) (bookmarked m).

(** The object spread [{ ...msg, bookmarked: v }]. *)
Definition with_bookmarked (v : bool) (m : ChatMsg) : ChatMsg :=
  mkChatMsg (role m) (content m) (msg_id m) (reactions m) (Some v).

(** The body of the [map] callback of [addReaction] for the addressed message. *)
Definition react (emoji : string) (m : ChatMsg) : ChatMsg :=
  let currentReactions := default [] (reactions m) in
  let hasReaction := includes emoji currentReactions in
  with_reactions
    (if hasReaction
     then List.filter (fun r => negb (String.eqb r emoji)) currentReactions
     else currentReactions ++ [emoji])
    m.

Definition addReaction (messageIndex : nat) (emoji : string) (st : State) : State :=
  setShowReactionPopup None
    (setHistory
       (fun prev =>
          imap (fun i m => if Nat.eqb i messageIndex then react emoji m else m) prev)
       st).

(** [!msg.bookmarked]: an absent flag is falsy. *)
Definition toggleBookmark (messageIndex : nat) (st : State) : State :=
  setHistory
    (fun prev =>
       imap (fun i m =>
               if Nat.eqb i messageIndex
               then with_bookmarked (negb (default false (bookmarked m))) m
               else m) prev)
    st.

(** ** The network *)

(** A statement sequence [f(); g();] on a value that is threaded through. *)
Notation "x |> f" := (f x) (at level 45, left associativity, only parsing).

(** A value that arrives in [catch (err)]: [err?.message], and the text that
    [`${err}`] prints. *)
Record Thrown := mkThrown { err_message : option string; err_text : string }.

(** [new Error(m)] *)
Definition Error (m : string) : Thrown := mkThrown (Some m) ("Error: " ++ m).

(** How [await fetch(...)] ends: it throws, or it gives a response with a
    status code whose body, once read ([res.json()], [res.arrayBuffer()]),
    throws or gives a value. *)
Inductive Fetched (A : Type) :=
| Rejected (e : Thrown)
| Response (code : nat) (body : Thrown + A).

Arguments Rejected {A} e.
Arguments Response {A} code body.

(** [res.ok] *)
Definition ok (code : nat) : bool := Nat.leb 200 code && Nat.leb code 299.

Record Metadata := mkMetadata {
  session_id : option Z;
  duration_seconds : option string   (* the number as a template literal prints it *)
}.

(** The JSON answer of [POST /chat/session]. *)
Record ChatData := mkChatData { response : string; metadata : option Metadata }.

Record StoredMsg := mkStoredMsg { m_role : Role; m_content : string; m_id : Z }.

(** The JSON answer of [GET /sessions/{id}]: [data.messages] and
    [data.session.title]. *)
Record SessionData := mkSessionData { sd_messages : list StoredMsg; sd_title : string }.

Inductive Request :=
| PostChat (text : string) (sid : option Z) (pers : string)
| PostVoice (text : string) (vo : string) (sp : Q)
| GetConfig
| GetSessions
| GetSession (sid : Z)
| DeleteSession (sid : Z) (permanent : bool).

(** A handler suspended at an [await], with what its closure captured. *)
Inductive Task :=
| ChatPending (currentSessionId0 : option Z) (textOnly0 : bool) (voice0 : string)
    (speed0 : Q)                                (* sendChat, first fetch *)
| VoicePending                                  (* sendChat, second fetch *)
| ConfigPending                                 (* loadConfig *)
| SessionsPending (awaiting : option (Z * option Z))
    (* loadSessions; when deleteSession awaits it: the sessionId and the
       currentSessionId of that call *)
| SessionPending (sessionId : Z)                (* loadSession *)
| DeletePending (sessionId : Z) (currentSessionId0 : option Z).  (* deleteSession *)

Inductive Reply :=
| ChatReply (r : Fetched ChatData)
| VoiceReply (r : Fetched string)
    (* the body is the object URL made for the audio buffer *)
| ConfigReply (r : Fetched VoiceConfig)
| SessionsReply (r : Fetched (option (list Session)))   (* [data.sessions] *)
| SessionReply (r : Fetched SessionData)
| DeleteReply (r : Fetched unit).

Record World := mkWorld {
  ui : State;
  tasks : list Task;       (* the suspended handlers, oldest first *)
  sent : list Request      (* every request sent so far, oldest first *)
}.

Definition on_ui (f : State -> State) (w : World) : World :=
  mkWorld (f (ui w)) (tasks w) (sent w).

(** [await fetch(req)]: the request leaves and the handler is suspended. *)
Definition fetch (req : Request) (t : Task) (w : World) : World :=
  mkWorld (ui w) (tasks w ++ [t]) (sent w ++ [req]).

(** ** Handlers *)

Definition loadConfig (w : World) : World := fetch GetConfig ConfigPending w.

(** [if (!res.ok) return;] and a [catch] that only logs: nothing but a
    well-read answer changes the state. *)
Definition loadConfig_resume (r : Fetched VoiceConfig) (w : World) : World :=
  match r with
  | Response code (inr cfg) =>
      if ok code
      then w |> on_ui (setVoices (cfg_voices cfg))
             |> on_ui (setVoice (default "Fritz-PlayAI" (default_voice cfg)))
             |> on_ui (setSpeed (default (105 # 100)%Q (default_speed cfg)))
      else w
  | _ => w
  end.

Definition loadSessions_from (awaiting : option (Z * option Z)) (w : World) : World :=
  fetch GetSessions (SessionsPending awaiting) w.

Definition loadSessions (w : World) : World := loadSessions_from None w.

(** [setSessions(data.sessions || [])] *)
Definition loadSessions_resume (r : Fetched (option (list Session))) (w : World)
    : World :=
  match r with
  | Response code (inr data_sessions) =>
      if ok code then w |> on_ui (setSessions (default [] data_sessions)) else w
  | _ => w
  end.

Definition loadSession (sessionId : Z) (w : World) : World :=
  fetch (GetSession sessionId) (SessionPending sessionId) w.

Definition loadSession_resume (sessionId : Z) (r : Fetched SessionData) (w : World)
    : World :=
  match r with
  | Response code (inr data) =>
      if ok code
      then w |> on_ui (setHistory (fun _ =>
                  map (fun m => mkChatMsg (m_role m) (m_content m) (Some (m_id m))
                                  None None)
                      (sd_messages data)))
             |> on_ui (setCurrentSessionId (Some sessionId))
             |> on_ui (setStatus ("Loaded: " ++ sd_title data))
      else w
  | _ => w
  end.

Definition createNewSession (st : State) : State :=
  st |> setHistory (fun _ => [])
     |> setCurrentSessionId None
     |> setAudioUrl None
     |> setStatus "New chat started".

Definition clearAll (st : State) : State :=
  st |> setHistory (fun _ => [])
     |> setAudioUrl None
     |> setCurrentSessionId None
     |> setStatus "Cleared".

(** [deleteSession]: the DELETE leaves; what follows is in the two resumptions
    below.  The [catch] only logs. *)
Definition deleteSession (sessionId : Z) (w : World) : World :=
  fetch (DeleteSession sessionId true)
        (DeletePending sessionId (currentSessionId (ui w))) w.

(** After [await fetch(..., DELETE)], whose response is not looked at:
    [await loadSessions()]. *)
Definition deleteSession_resume (sessionId : Z) (currentSessionId0 : option Z)
    (r : Fetched unit) (w : World) : World :=
  match r with
  | Rejected _ => w
  | Response _ _ => loadSessions_from (Some (sessionId, currentSessionId0)) w
  end.

(** [currentSessionId === sessionId] *)
Definition same_session (currentSessionId0 : option Z) (sessionId : Z) : bool :=
  match currentSessionId0 with
  | Some c => Z.eqb c sessionId
  | None => false
  end.

(** After [await loadSessions()]:
    [if (currentSessionId === sessionId) createNewSession()]. *)
Definition deleteSession_finish (awaiting : option (Z * option Z)) (w : World)
    : World :=
  match awaiting with
  | Some (sessionId, currentSessionId0) =>
      if same_session currentSessionId0 sessionId
      then on_ui createNewSession w
      else w
  | None => w
  end.

(** The [catch] and [finally] blocks of [sendChat]. *)
Definition sendChat_catch (err : Thrown) (w : World) : World :=
  w |> on_ui (setStatus ("Error: " ++ default (err_text err) (err_message err)))
    |> on_ui (setLoading false).

Definition sendChat (w : World) : World :=
  let st := ui w in
  if negb (JsString.truthy (JsString.trim (message st))) then w else
  let userMsg := msg user (JsString.trim (message st)) in
  w |> on_ui (setHistory (fun h => (h ++ [userMsg])%list))
    |> on_ui (setMessage "")
    |> on_ui (setTranscript "")
    |> on_ui (setLoading true)
    |> on_ui (setStatus "Thinking...")
    |> fetch (PostChat (content userMsg) (currentSessionId st) "iroha")
             (ChatPending (currentSessionId st) (textOnly st) (voice st) (speed st)).

(** [data.metadata?.session_id && !currentSessionId]: the id when the branch is
    taken. *)
Definition new_session_id (data : ChatData) (currentSessionId0 : option Z)
    : option Z :=
  match metadata data ≫= session_id with
  | Some n =>
      if JsString.truthy_num n
         && negb (JsString.truthy_num (default 0%Z currentSessionId0))
      then Some n else None
  | None => None
  end.

(** [sendChat] from the answer of [POST /chat/session] on. *)
Definition sendChat_resume (currentSessionId0 : option Z) (textOnly0 : bool)
    (voice0 : string) (speed0 : Q) (r : Fetched ChatData) (w : World) : World :=
  match r with
  | Rejected e => sendChat_catch e w
  | Response code body =>
      if negb (ok code)
      then sendChat_catch (Error ("Chat failed (" ++ pretty code ++ ")")) w
      else
        match body with
        | inl e => sendChat_catch e w
        | inr data =>
            let w1 :=
              match new_session_id data currentSessionId0 with
              | Some n => w |> on_ui (setCurrentSessionId (Some n)) |> loadSessions
              | None => w
              end in
            let botMsg := msg assistant (response data) in
            let w2 :=
              w1 |> on_ui (setHistory (fun h => (h ++ [botMsg])%list))
                 |> on_ui (setStatus
                             ("Response time: "
                              ++ default "?" (metadata data ≫= duration_seconds)
                              ++ "s")) in
            if negb textOnly0
            then w2 |> on_ui (setStatus "Generating voice...")
                    |> fetch (PostVoice (response data) voice0 speed0) VoicePending
            else w2 |> on_ui (setLoading false)
        end
  end.

(** [sendChat] from the answer of [POST /voice/groq/stream] on. *)
Definition sendChat_voice (r : Fetched string) (w : World) : World :=
  match r with
  | Rejected e => sendChat_catch e w
  | Response code body =>
      if negb (ok code)
      then sendChat_catch (Error ("TTS failed (" ++ pretty code ++ ")")) w
      else
        match body with
        | inl e => sendChat_catch e w
        | inr url =>
            w |> on_ui (setAudioUrl (Some url))
              |> on_ui (setStatus "Ready")
              |> on_ui (setLoading false)
        end
  end.

Definition handleKeyDown (key : string) (shiftKey : bool) (w : World) : World :=
  if String.eqb key "Enter" && negb shiftKey then sendChat w else w.

(** ** The voice input hook *)

Definition startListening (st : State) : State :=
  if isSupported st && negb (isListening st)
  then st |> setTranscript "" |> setIsListening true
  else st.

Definition stopListening (st : State) : State :=
  if isSupported st && isListening st then setIsListening false st else st.

(** [recognition.onresult], followed by the effect on [transcript]:
    [if (transcript) setMessage(transcript)], which runs when the transcript
    has changed. *)
Definition onresult (t : string) (st : State) : State :=
  let st' := setTranscript t st in
  if negb (String.eqb t (transcript st)) && JsString.truthy t
  then setMessage t st'
  else st'.

(** ** Events *)

(** The speed slider, [<input type="range" min={0.5} max={2} step={0.05}>],
    reports the values [min + k * step] up to [max]: 31 notches.  The page
    holds the number that [parseFloat] reads from the notch; it is taken here
    as the exact rational, which compares with the bounds 0.5 and 2 (both
    exact as numbers of the page) the same way. *)
Definition slider_min : Q := (5 # 10)%Q.
Definition slider_max : Q := (2 # 1)%Q.
Definition slider_step : Q := (5 # 100)%Q.

Definition slider_value (notch : nat) : Q :=
  (slider_min + inject_Z (Z.of_nat (Nat.min notch 30)) * slider_step)%Q.

Inductive Event :=
| ChangeMessage (v : string)           (* textarea, onChange *)
| KeyDown (key : string) (shiftKey : bool)   (* textarea, onKeyDown *)
| ClickSend
| ClickClear
| ClickNewChat
| ClickSession (idx : nat)                    (* a row of the sidebar *)
| ClickDelete (idx : nat)                     (* the cross on a row *)
| ClickBookmark (i : nat)
| ClickReactionButton (i : nat)
| ClickReaction (i : nat) (k : nat)           (* k-th emoji of the popup *)
| ChangeVoice (k : string)
| ChangeSpeed (notch : nat)
| ChangeTextOnly (checked : bool)
| ClickMic
| SpeechResult (t : string)
| SpeechEnd                                   (* onend and onerror *)
| Receive (n : nat) (r : Reply).              (* the n-th pending fetch ends *)

(** What a suspended handler does with the answer; [None] when the answer is
    not one for its request. *)
Definition resume (t : Task) (r : Reply) (w : World) : option World :=
  match t, r with
  | ChatPending c t v s, ChatReply r => Some (sendChat_resume c t v s r w)
  | VoicePending, VoiceReply r => Some (sendChat_voice r w)
  | ConfigPending, ConfigReply r => Some (loadConfig_resume r w)
  | SessionsPending k, SessionsReply r =>
      Some (w |> loadSessions_resume r |> deleteSession_finish k)
  | SessionPending sessionId, SessionReply r =>
      Some (loadSession_resume sessionId r w)
  | DeletePending sessionId c, DeleteReply r =>
      Some (deleteSession_resume sessionId c r w)
  | _, _ => None
  end.

Definition deliver (n : nat) (r : Reply) (w : World) : World :=
  match tasks w !! n with
  | Some t => default w (resume t r (mkWorld (ui w) (delete n (tasks w)) (sent w)))
  | None => w
  end.

(** The dispatch of an event by the rendered page: an element that is not
    there, or is disabled, has no handler to run. *)
Definition step (e : Event) (w : World) : World :=
  let st := ui w in
  match e with
  | ChangeMessage v => if isListening st then w else on_ui (setMessage v) w
  | KeyDown key shiftKey =>
      if isListening st then w else handleKeyDown key shiftKey w
  | ClickSend =>
      if loading st || negb (JsString.truthy (JsString.trim (message st)))
      then w else sendChat w
  | ClickClear => on_ui clearAll w
  | ClickNewChat => on_ui createNewSession w
  | ClickSession idx =>
      match sessions st !! idx with
      | Some s => loadSession (s_id s) w
      | None => w
      end
  | ClickDelete idx =>
      match sessions st !! idx with
      | Some s => deleteSession (s_id s) w
      | None => w
      end
  | ClickBookmark i =>
      if Nat.ltb i (length (history st)) then on_ui (toggleBookmark i) w else w
  | ClickReactionButton i =>
      if Nat.ltb i (length (history st))
      then on_ui (setShowReactionPopup
                    (if decide (showReactionPopup st = Some i) then None else Some i))
                 w
      else w
  | ClickReaction i k =>
      match history st !! i, availableReactions !! k with
      | Some _, Some emoji => on_ui (addReaction i emoji) w
      | _, _ => w
      end
  | ChangeVoice k =>
      if decide (is_Some (voices st !! k)) then on_ui (setVoice k) w else w
  | ChangeSpeed notch => on_ui (setSpeed (slider_value notch)) w
  | ChangeTextOnly checked => on_ui (setTextOnly checked) w
  | ClickMic =>
      if isSupported st
      then on_ui (if isListening st then stopListening else startListening) w
      else w
  | SpeechResult t => if isSupported st then on_ui (onresult t) w else w
  | SpeechEnd => on_ui (setIsListening false) w
  | Receive n r => deliver n r w
  end.

Definition run (evs : list Event) (w : World) : World :=
  fold_left (fun w e => step e w) evs w.

(** The page after its first render and its mount effects: speech recognition
    is looked for, and [loadConfig] and [loadSessions] are called. *)
Definition mount (speechRecognition : bool) : World :=
  mkWorld initialState [] []
    |> on_ui (setIsSupported speechRecognition)
    |> loadConfig
    |> loadSessions.

(** ** A handler run from its call to its end

    [sendChat_run chat voice w]: [sendChat] is called in [w] and nothing else
    happens until it ends; [chat] and [voice] are what its fetches end with
    (the second is not looked at when no second fetch is made). *)
Definition is_VoicePending (t : option Task) : bool :=
  match t with Some VoicePending => true | _ => false end.

Definition sendChat_run (chat : Fetched ChatData) (voice_r : Fetched string)
    (w : World) : World :=
  let n := length (tasks w) in
  let w1 := sendChat w in
  if Nat.ltb n (length (tasks w1)) then
    let w2 := deliver n (ChatReply chat) w1 in
    if Nat.ltb n (length (tasks w2)) && is_VoicePending (last (tasks w2))
    then deliver (length (tasks w2) - 1) (VoiceReply voice_r) w2
    else w2
  else w1.

(** [deleteSession_run sessionId del list w]: the same for [deleteSession];
    [del] is what the DELETE ends with and [list] what the fetch of
    [loadSessions] ends with. *)
Definition deleteSession_run (sessionId : Z) (del : Fetched unit)
    (list_r : Fetched (option (list Session))) (w : World) : World :=
  let n := length (tasks w) in
  let w1 := deleteSession sessionId w |> deliver n (DeleteReply del) in
  if Nat.ltb n (length (tasks w1))
  then deliver n (SessionsReply list_r) w1
  else w1.

(** ** Upstream failures

    A fetch fails when it throws, when its response is not [ok], or when
    reading its body throws. *)
Definition failed {A : Type} (r : Fetched A) : bool :=
  match r with
  | Rejected _ => true
  | Response code (inl _) => true
  | Response code (inr _) => negb (ok code)
  end.

(** The answer [r] to the suspended handler [t] is a failure of one of the two
    requests of [sendChat]. *)
Definition upstream_failure (t : Task) (r : Reply) : bool :=
  match t, r with
  | ChatPending _ _ _ _, ChatReply r => failed r
  | VoicePending, VoiceReply r => failed r
  | _, _ => false
  end.

(** The assistant entry that the answer to the chat request brings: one when
    the answer is read well, none otherwise. *)
Definition reply_entries (chat : Fetched ChatData) : list ChatMsg :=
  match chat with
  | Response code (inr data) =>
      if ok code then [msg assistant (response data)] else []
  | _ => []
  end.

(** ** The session store of the backend *)

(** Modelled from the spec: the session store of the backend, which answers
    [DELETE /sessions/{id}?permanent=true] and [GET /sessions] and whose code is
    not among the sources.  The spec has "plain list/get/delete operations over
    a persistence layer; deletion supports an immediate permanent flag" and
    "deleting a session removes it from the list": the store is the list of
    its session rows, a permanent deletion drops the rows with the id, and the
    listing returns the rows. *)
Definition store_delete (sessionId : Z) (db : list Session) : list Session :=
  List.filter (fun s => negb (Z.eqb (s_id s) sessionId)) db.

Definition store_list (db : list Session) : Fetched (option (list Session)) :=
  Response 200 (inr (Some db)).

(** A page with one saved conversation open: the sidebar lists session 7 and
    its messages are loaded. *)
Definition session7 : Session :=
  mkSession 7 "Homework" "iroha" "2025-01-01" "2025-01-02" 2.

Definition page_with_session7 : World :=
  run [Receive 1 (SessionsReply (store_list [session7]));
       ClickSession 0;
       Receive 1 (SessionReply
                    (Response 200
                       (inr (mkSessionData
                               [mkStoredMsg user "hi" 1; mkStoredMsg assistant "hello" 2]
                               "Homework"))))]
      (mount false).

(** ** Outstanding chat requests *)

Definition is_ChatPending (t : Task) : bool :=
  match t with ChatPending _ _ _ _ => true | _ => false end.

(** A page on which "hi" has been sent and is awaiting its answer, and a next
    message has been typed. *)
Definition page_awaiting_answer : World :=
  run [ChangeMessage "hi"; ClickSend; ChangeMessage "again"] (mount false).

(** ** Speeds *)

(** The speed that [loadConfig] would set from a well-read answer lies within
    the bounds of the slider; true of any other event. *)
Definition config_speed_ok (e : Event) : Prop :=
  match e with
  | Receive _ (ConfigReply (Response _ (inr cfg))) =>
      (slider_min <= default (105 # 100) (default_speed cfg))%Q
      /\ (default (105 # 100) (default_speed cfg) <= slider_max)%Q
  | _ => True
  end.

(** A voice configuration whose own bounds are 1 and 1.5. *)
Definition narrow_config : VoiceConfig :=
  mkVoiceConfig {[ "Fritz-PlayAI" := "Fritz-PlayAI" ]} (Some "Fritz-PlayAI")
                "Fritz-PlayAI" (1 # 1)%Q (3 # 2)%Q (Some (1 # 1)%Q).

(** A speed within the bounds of the slider. *)
Definition in_slider (q : Q) : Prop := (slider_min <= q)%Q /\ (q <= slider_max)%Q.

(** A function on the state that leaves the speed alone. *)
Definition keeps_speed (f : State -> State) : Prop :=
  forall st : State, speed (f st) = speed st.

Ltac keeps_speed_by_cases :=
  unfold keeps_speed; intros;
  match goal with st : State |- _ => destruct st end; cbn;
  repeat match goal with
    | |- context [if ?b then _ else _] => destruct b; cbn
    end;
  reflexivity.

(** ** Dark mode

    The cell [darkMode], the class [dark] of the document element and the item
    [theme] of the local storage are apart from the rest of the page: only
    [toggleDarkMode] and one mount effect touch them. *)
Record Theme := mkTheme {
  darkMode : bool;
  html_dark : bool;                (* documentElement.classList has "dark" *)
  saved_theme : option string      (* localStorage.getItem("theme") *)
}.

(** The first render: [useState(false)], on the document as the layout
    renders it (no class), with what the storage holds. *)
Definition theme_first_render (savedTheme : option string) : Theme :=
  mkTheme false false savedTheme.

(** The mount effect:
    [if (savedTheme === "dark" || (!savedTheme && prefersDark))]. *)
Definition theme_effect (prefersDark : bool) (t : Theme) : Theme :=
  let savedTheme := saved_theme t in
  if String.eqb (default "" savedTheme) "dark"
     || (negb (JsString.truthy (default "" savedTheme)) && prefersDark)
  then mkTheme true true (saved_theme t)
  else t.

Definition toggleDarkMode (t : Theme) : Theme :=
  if negb (darkMode t)
  then mkTheme (negb (darkMode t)) true (Some "dark")
  else mkTheme (negb (darkMode t)) false (Some "light").

(** The page opened with [savedTheme] in the storage and the preference
    [prefersDark] of the system, after [n] clicks on the toggle. *)
Definition theme_after (savedTheme : option string) (prefersDark : bool) (n : nat)
    : Theme :=
  Nat.iter n toggleDarkMode (theme_effect prefersDark (theme_first_render savedTheme)).

(** ** The shapes of a step

    What [step] does to the state when it sends nothing: one of these
    functions on the cells. *)
Inductive Action :=
| Idle
| Typed (v : string)
| Cleared
| NewChat
| Bookmarked (i : nat)
| Popup (p : option nat)
| Reacted (i : nat) (emoji : string)
| VoiceChosen (k : string)
| SpeedChosen (notch : nat)
| TextOnlyChosen (checked : bool)
| MicStarted
| MicStopped
| Heard (t : string)
| SpeechEnded.

Definition act (a : Action) : State -> State :=
  match a with
  | Idle => fun st => st
  | Typed v => setMessage v
  | Cleared => clearAll
  | NewChat => createNewSession
  | Bookmarked i => toggleBookmark i
  | Popup p => setShowReactionPopup p
  | Reacted i emoji => addReaction i emoji
  | VoiceChosen k => setVoice k
  | SpeedChosen notch => setSpeed (slider_value notch)
  | TextOnlyChosen checked => setTextOnly checked
  | MicStarted => startListening
  | MicStopped => stopListening
  | Heard t => onresult t
  | SpeechEnded => setIsListening false
  end.

(** The emoji of a reaction comes from the popup. *)
Definition from_popup (a : Action) : Prop :=
  match a with
  | Reacted _ emoji => emoji ∈ availableReactions
  | _ => True
  end.

(** ** Invariants of the page *)

(** A stage of [sendChat] that is suspended. *)
Definition is_sendChat_task (t : Task) : bool :=
  match t with
  | ChatPending _ _ _ _ | VoicePending => true
  | _ => false
  end.

(** The reactions of a message: no emoji twice, and only emojis of the popup. *)
Definition reactions_ok (m : ChatMsg) : Prop :=
  NoDup (default [] (reactions m))
  /\ forall emoji, emoji ∈ default [] (reactions m) -> emoji ∈ availableReactions.

(** What the page may send: a chat message that is not empty, for the persona
    "iroha"; a deletion that is permanent. *)
Definition request_ok (r : Request) : Prop :=
  match r with
  | PostChat text _ pers => text <> "" /\ pers = "iroha"
  | DeleteSession _ permanent => permanent = true
  | _ => True
  end.

(** A conversation of two messages, the second one with a bookmark and a
    reaction. *)
Definition annotated_state : State :=
  setHistory (fun _ => [msg user "hi";
                        mkChatMsg assistant "hello" (Some 2%Z) (Some ["👍"]) (Some true)])
             initialState.

Definition is_PostVoice (r : Request) : bool :=
  match r with PostVoice _ _ _ => true | _ => false end.

(** The answer [r] to the suspended handler [t] is a failure of the fetch of
    [loadConfig], of [loadSessions] called on its own, or of [loadSession]. *)
Definition loader_failure (t : Task) (r : Reply) : bool :=
  match t, r with
  | ConfigPending, ConfigReply r => failed r
  | SessionsPending None, SessionsReply r => failed r
  | SessionPending _, SessionReply r => failed r
  | _, _ => false
  end.

(** What [loadSession] makes of a stored message. *)
Definition of_stored (m : StoredMsg) : ChatMsg :=
  mkChatMsg (m_role m) (m_content m) (Some (m_id m)) None None.

(** What the messages of a history say: their roles and contents. *)
Definition texts (h : list ChatMsg) : list (Role * string) :=
  (fun m => (role m, content m)) <$> h.

(** Case analysis on the cells and on the answers of the network. *)
Ltac by_cases_on_state :=
  intros;
  repeat match goal with
    | w : World |- _ => destruct w as [[] ? ?]
    | st : State |- _ => destruct st
    | p : (_ * _)%type |- _ => destruct p
    end;
  cbn in *;
  repeat match goal with
    | |- context [if ?c then _ else _] => destruct c; cbn in *
    | |- context [match ?x with Rejected _ => _ | Response _ _ => _ end] =>
        destruct x as [? | ? [? | ?]]; cbn in *
    | |- context [match ?x with Some _ => _ | None => _ end] => destruct x; cbn in *
    | |- context [match ?x with (_, _) => _ end] => destruct x; cbn in *
    end;
  try done.

(** * Properties *)

(** ** Setters and projections *)

Lemma history_setHistory f st : history (setHistory f st) = f (history st).
Proof. by destruct st. Qed.

Lemma history_addReaction i emoji st :
  history (addReaction i emoji st)
  = imap (fun j m => if Nat.eqb j i then react emoji m else m) (history st).
Proof. by destruct st. Qed.

Lemma history_toggleBookmark i st :
  history (toggleBookmark i st)
  = imap (fun j m =>
            if Nat.eqb j i
            then with_bookmarked (negb (default false (bookmarked m))) m
            else m) (history st).
Proof. by destruct st. Qed.

(** ** Membership in a reaction list *)

Lemma includes_elem_of (emoji : string) (l : list string) :
  includes emoji l = true <-> emoji ∈ l.
Proof.
  unfold includes. rewrite existsb_exists, list_elem_of_In. split.
  - intros (x & Hx & Heq). apply String.eqb_eq in Heq. by subst.
  - intros Hin. exists emoji. split; [done | apply String.eqb_refl].
Qed.

Lemma not_elem_of_filter_ne (emoji : string) (l : list string) :
  emoji ∉ List.filter (fun r => negb (String.eqb r emoji)) l.
Proof.
  rewrite list_elem_of_In, filter_In. intros [_ Hne].
  by rewrite String.eqb_refl in Hne.
Qed.

(** What [react] leaves in the reaction list, by the case of [hasReaction]. *)
Lemma react_toggles (emoji : string) (m : ChatMsg) :
  emoji ∈ default [] (reactions (react emoji m))
  <-> emoji ∉ default [] (reactions m).
Proof.
  unfold react. cbn [reactions with_reactions default].
  destruct (includes emoji (default [] (reactions m))) eqn:Hinc.
  - apply includes_elem_of in Hinc. split.
    + intros Hin. by apply not_elem_of_filter_ne in Hin.
    + intros Hnot. by destruct Hnot.
  - split.
    + intros _ Hin. apply includes_elem_of in Hin. congruence.
    + intros _. apply elem_of_app. right. by apply list_elem_of_singleton.
Qed.

(** ** C4 *)

(** C4. [addReaction] and [toggleBookmark] give a history of the same length;
    every entry keeps its role, its content (and its id); [addReaction] leaves
    every bookmark flag and [toggleBookmark] every reaction list as it was; and
    every entry other than the addressed one is unchanged. *)
Theorem annotations_only (st : State) (i : nat) (emoji : string) :
  length (history (addReaction i emoji st)) = length (history st)
  /\ length (history (toggleBookmark i st)) = length (history st)
  /\ forall (j : nat) (m : ChatMsg),
       history st !! j = Some m ->
       exists m1 m2 : ChatMsg,
         history (addReaction i emoji st) !! j = Some m1
         /\ history (toggleBookmark i st) !! j = Some m2
         /\ role m1 = role m /\ content m1 = content m /\ msg_id m1 = msg_id m
         /\ bookmarked m1 = bookmarked m
         /\ role m2 = role m /\ content m2 = content m /\ msg_id m2 = msg_id m
         /\ reactions m2 = reactions m
         /\ (j <> i -> m1 = m /\ m2 = m).
Proof.
  rewrite history_addReaction, history_toggleBookmark, !length_imap.
  split; [done | split; [done |]].
  intros j m Hj. rewrite !list_lookup_imap, Hj. cbn [fmap option_fmap option_map].
  destruct (Nat.eqb_spec j i) as [-> | Hne].
  - eexists _, _. repeat split; done.
  - eexists _, _. repeat split; done.
Qed.

Lemma annotations_only_witness :
  let st := setHistory (fun _ => [msg user "hi"; msg assistant "hello"]) initialState in
  history st !! 1 = Some (msg assistant "hello")
  /\ exists m1 m2 : ChatMsg,
       history (addReaction 1 "👍" st) !! 1 = Some m1
       /\ history (toggleBookmark 1 st) !! 1 = Some m2
       /\ role m1 = assistant /\ content m1 = "hello"
       /\ role m2 = assistant /\ content m2 = "hello".
Proof.
  intros st.
  assert (Hm : history st !! 1 = Some (msg assistant "hello")) by reflexivity.
  split; [exact Hm |].
  destruct (annotations_only st 1 "👍") as (_ & _ & Hframe).
  destruct (Hframe 1 (msg assistant "hello") Hm)
    as (m1 & m2 & H1 & H2 & Hr1 & Hc1 & _ & _ & Hr2 & Hc2 & _).
  exists m1, m2. repeat split; assumption.
Defined.

(** ** C9 *)

(** C9. For a valid index [i], after [addReaction i emoji] the emoji is in the
    reactions of message [i] exactly when it was not there before. *)
Theorem addReaction_toggles (st : State) (i : nat) (emoji : string) :
  i < length (history st) ->
  exists m m' : ChatMsg,
    history st !! i = Some m
    /\ history (addReaction i emoji st) !! i = Some m'
    /\ (emoji ∈ default [] (reactions m') <-> emoji ∉ default [] (reactions m)).
Proof.
  intros Hi. destruct (lookup_lt_is_Some_2 _ _ Hi) as [m Hm].
  exists m, (react emoji m). split; [done | split].
  - by rewrite history_addReaction, list_lookup_imap, Hm, Nat.eqb_refl.
  - apply react_toggles.
Qed.

Lemma addReaction_toggles_witness :
  let st :=
    setHistory (fun _ => [mkChatMsg assistant "hello" None (Some ["👍"; "💡"]) None])
               initialState in
  0 < length (history st)
  /\ exists m m' : ChatMsg,
       history st !! 0 = Some m
       /\ history (addReaction 0 "👍" st) !! 0 = Some m'
       /\ ("👍" ∈ default [] (reactions m') <-> "👍" ∉ default [] (reactions m)).
Proof.
  intros st. assert (Hlt : 0 < length (history st)) by (cbn; lia).
  split; [exact Hlt | exact (addReaction_toggles st 0 "👍" Hlt)].
Defined.

(** ** Blank texts *)

Lemma ws2_not_ws1 a b : JsString.ws2 a b = true -> JsString.ws1 a = false.
Proof.
  destruct a as [[] [] [] [] [] [] [] []]; intros H; try reflexivity;
    vm_compute in H; discriminate H.
Qed.

Lemma ws3_not_ws1 a b c : JsString.ws3 a b c = true -> JsString.ws1 a = false.
Proof.
  destruct a as [[] [] [] [] [] [] [] []]; intros H; try reflexivity;
    vm_compute in H; discriminate H.
Qed.

Lemma ws3_not_ws2 a b c : JsString.ws3 a b c = true -> JsString.ws2 a b = false.
Proof.
  destruct a as [[] [] [] [] [] [] [] []]; intros H; try reflexivity;
    vm_compute in H; discriminate H.
Qed.

Lemma trimStart_Blank s : JsString.Blank s -> JsString.trimStart s = "".
Proof.
  unfold JsString.trimStart, JsString.Blank.
  induction 1 as [| a s Ha _ IH | a b s Hab _ IH | a b c s Habc _ IH]; cbn.
  - done.
  - by rewrite Ha.
  - by rewrite (ws2_not_ws1 _ _ Hab), Hab.
  - by rewrite (ws3_not_ws1 _ _ _ Habc), (ws3_not_ws2 _ _ _ Habc), Habc.
Qed.

Lemma trim_Blank s : JsString.Blank s -> JsString.trim s = "".
Proof. intros Hs. unfold JsString.trim. by rewrite (trimStart_Blank _ Hs). Qed.

(** The converse: what [trim] empties is blank.  [strip] is followed piece by
    piece, from the head and, mirrored, from the tail. *)

Section Strip.
Variable w1 : ascii -> bool.
Variable w2 : ascii -> ascii -> bool.
Variable w3 : ascii -> ascii -> ascii -> bool.

Lemma strip_cons (a : ascii) (t1 : string) :
  JsString.strip w1 w2 w3 (String a t1)
  = if w1 a then JsString.strip w1 w2 w3 t1 else
    match t1 with
    | EmptyString => String a t1
    | String b t2 =>
        if w2 a b then JsString.strip w1 w2 w3 t2 else
        match t2 with
        | EmptyString => String a t1
        | String c t3 =>
            if w3 a b c then JsString.strip w1 w2 w3 t3 else String a t1
        end
    end.
Proof. reflexivity. Qed.

Lemma Tiled_strip (s : string) :
  JsString.Tiled w1 w2 w3 (JsString.strip w1 w2 w3 s) -> JsString.Tiled w1 w2 w3 s.
Proof.
  remember (String.length s) as n eqn:Hn. revert s Hn.
  induction n as [n IH] using lt_wf_ind. intros s Hn.
  destruct s as [| a t1]; [done |]. rewrite strip_cons.
  destruct (w1 a) eqn:H1.
  { intros H. apply JsString.Tiled_1; [done |].
    apply (IH (String.length t1)); [subst; cbn; lia | done | done]. }
  destruct t1 as [| b t2]; [done |].
  destruct (w2 a b) eqn:H2.
  { intros H. apply JsString.Tiled_2; [done |].
    apply (IH (String.length t2)); [subst; cbn; lia | done | done]. }
  destruct t2 as [| c t3]; [done |].
  destruct (w3 a b c) eqn:H3; [| done].
  intros H. apply JsString.Tiled_3; [done |].
  apply (IH (String.length t3)); [subst; cbn; lia | done | done].
Qed.

Lemma strip_empty_Tiled (s : string) :
  JsString.strip w1 w2 w3 s = "" -> JsString.Tiled w1 w2 w3 s.
Proof. intros H. apply Tiled_strip. rewrite H. constructor. Qed.

(** Reading a tiled sequence backwards gives one that is tiled by the mirrored
    pieces. *)
Lemma Tiled_rev_app (x acc : string) :
  JsString.Tiled w1 (fun a b => w2 b a) (fun a b c => w3 c b a) x ->
  JsString.Tiled w1 w2 w3 acc ->
  JsString.Tiled w1 w2 w3 (String.rev_app x acc).
Proof.
  intros Hx. revert acc.
  induction Hx as [| a s Ha _ IH | a b s Hab _ IH | a b c s Habc _ IH];
    intros acc Hacc; cbn.
  - done.
  - apply IH. by apply JsString.Tiled_1.
  - apply IH. by apply JsString.Tiled_2.
  - apply IH. by apply JsString.Tiled_3.
Qed.

End Strip.

Lemma rev_app_empty (x acc : string) :
  String.rev_app x acc = "" -> x = "" /\ acc = "".
Proof.
  revert acc. induction x as [| a x IH]; intros acc H; [done |].
  cbn in H. apply IH in H as [_ H]. discriminate.
Qed.

Lemma rev_app_rev_app (y a b : string) :
  String.rev_app (String.rev_app y a) b = String.rev_app a (y ++ b).
Proof.
  revert a b. induction y as [| c y IH]; intros a b; [done |].
  cbn. by rewrite IH.
Qed.

Lemma append_empty_r (s : string) : s ++ "" = s.
Proof.
  induction s as [| a s IH]; [done |].
  change (String a (s ++ "") = String a s). by rewrite IH.
Qed.

Lemma rev_rev (y : string) : String.rev (String.rev y) = y.
Proof.
  unfold String.rev. rewrite rev_app_rev_app. cbn. apply append_empty_r.
Qed.

Lemma trim_empty_Blank (s : string) : JsString.trim s = "" -> JsString.Blank s.
Proof.
  unfold JsString.trim, JsString.trimEnd, JsString.trimStart, JsString.Blank.
  intros H. apply rev_app_empty in H as [H _]. apply strip_empty_Tiled in H.
  apply Tiled_strip. rewrite <- (rev_rev (JsString.strip _ _ _ s)).
  apply Tiled_rev_app; [exact H | constructor].
Qed.

(** [message.trim()] is empty exactly when the message is blank. *)
Lemma trim_empty_iff (s : string) : JsString.trim s = "" <-> JsString.Blank s.
Proof. split; [apply trim_empty_Blank | apply trim_Blank]. Qed.

Lemma not_Blank_trim (s : string) : ~ JsString.Blank s -> JsString.trim s <> "".
Proof. intros Hnb Ht. by apply Hnb, trim_empty_Blank. Qed.

(** ** C8 *)

(** C8. When the input message is empty or white space only, [sendChat]
    changes nothing: the state ([history], [status], [loading],
    [currentSessionId], [audioUrl] and the rest) is the same, nothing is
    suspended and no request is sent, whatever way the call is made (directly,
    by the send button, by the Enter key) and whatever the network would have
    answered. *)
Theorem sendChat_blank_noop (w : World) :
  JsString.Blank (message (ui w)) ->
  sendChat w = w
  /\ step ClickSend w = w
  /\ step (KeyDown "Enter" false) w = w
  /\ forall chat voice_r, sendChat_run chat voice_r w = w.
Proof.
  intros Hblank.
  assert (Hsend : sendChat w = w).
  { unfold sendChat. by rewrite (trim_Blank _ Hblank). }
  repeat split.
  - exact Hsend.
  - cbn. rewrite Hsend. by destruct (_ || _).
  - cbn. unfold handleKeyDown. cbn. rewrite Hsend. by destruct (isListening _).
  - intros chat voice_r. unfold sendChat_run. rewrite Hsend.
    by rewrite Nat.ltb_irrefl.
Qed.

Lemma sendChat_blank_noop_witness :
  let w := on_ui (setMessage (String " " (String "009" ""))) (mount true) in
  JsString.Blank (message (ui w))
  /\ sendChat w = w
  /\ sent (step (KeyDown "Enter" false) w) = [GetConfig; GetSessions].
Proof.
  intros w.
  assert (Hblank : JsString.Blank (message (ui w))).
  { cbn. apply JsString.Tiled_1; [reflexivity |].
    apply JsString.Tiled_1; [reflexivity |]. apply JsString.Tiled_empty. }
  destruct (sendChat_blank_noop w Hblank) as (Hsend & _ & Hkey & _).
  split; [exact Hblank | split; [exact Hsend |]].
  rewrite Hkey. reflexivity.
Defined.

(** ** C10 *)

(** C10. [createNewSession] and [clearAll] make the same update but for the
    status text: both empty the history and set [currentSessionId] and
    [audioUrl] to null; the first sets the status to "New chat started", the
    second to "Cleared"; setting the status of either to the text of the other
    gives the other. *)
Theorem createNewSession_clearAll (st : State) :
  history (createNewSession st) = [] /\ history (clearAll st) = []
  /\ currentSessionId (createNewSession st) = None
  /\ currentSessionId (clearAll st) = None
  /\ audioUrl (createNewSession st) = None /\ audioUrl (clearAll st) = None
  /\ status (createNewSession st) = "New chat started"
  /\ status (clearAll st) = "Cleared"
  /\ clearAll st = setStatus "Cleared" (createNewSession st)
  /\ createNewSession st = setStatus "New chat started" (clearAll st).
Proof. destruct st. cbn. repeat split. Qed.

(** ** Resuming a handler *)

Lemma deliver_fetch (req : Request) (t : Task) (r : Reply) (w : World) :
  deliver (length (tasks w)) r (fetch req t w)
  = default (fetch req t w)
            (resume t r (mkWorld (ui w) (tasks w) (sent w ++ [req]))).
Proof.
  unfold deliver, fetch. cbn [tasks ui sent].
  rewrite list_lookup_middle by done.
  by rewrite delete_middle, app_nil_r.
Qed.

Lemma sendChat_catch_spec (e : Thrown) (w : World) :
  status (ui (sendChat_catch e w)) = "Error: " ++ default (err_text e) (err_message e)
  /\ loading (ui (sendChat_catch e w)) = false
  /\ history (ui (sendChat_catch e w)) = history (ui w)
  /\ currentSessionId (ui (sendChat_catch e w)) = currentSessionId (ui w)
  /\ tasks (sendChat_catch e w) = tasks w
  /\ sent (sendChat_catch e w) = sent w.
Proof. destruct w as [[] ? ?]. cbn. repeat split. Qed.

Lemma prefix_Error (s : string) : String.prefix "Error:" ("Error: " ++ s) = true.
Proof. reflexivity. Qed.

(** ** C3 *)

(** C3. When the answer to a request of [sendChat] (the chat request or the
    voice request) is a failure (the fetch throws, the response is not ok, or
    reading the body throws), the suspended [sendChat] ends in its [catch]:
    the status becomes a text that starts with "Error:", [loading] becomes
    false, no request is sent (no retry) and nothing new is pending. *)
Theorem sendChat_failure_surfaced (w : World) (n : nat) (t : Task) (r : Reply) :
  tasks w !! n = Some t ->
  upstream_failure t r = true ->
  String.prefix "Error:" (status (ui (deliver n r w))) = true
  /\ loading (ui (deliver n r w)) = false
  /\ sent (deliver n r w) = sent w
  /\ tasks (deliver n r w) = delete n (tasks w).
Proof.
  intros Hn Hfail. unfold deliver. rewrite Hn.
  set (w0 := mkWorld (ui w) (delete n (tasks w)) (sent w)).
  assert (Hcatch : forall e,
    String.prefix "Error:" (status (ui (sendChat_catch e w0))) = true
    /\ loading (ui (sendChat_catch e w0)) = false
    /\ sent (sendChat_catch e w0) = sent w
    /\ tasks (sendChat_catch e w0) = delete n (tasks w)).
  { intros e.
    destruct (sendChat_catch_spec e w0) as (Hs & Hl & _ & _ & Ht & Hsent).
    rewrite Hs, Hl, Ht, Hsent. split; [apply prefix_Error | done]. }
  destruct t, r as [r | r | r | r | r | r]; cbn in Hfail; try discriminate;
    cbn [resume default];
    destruct r as [e | code [e | a]]; cbn in Hfail; try discriminate;
    cbn [sendChat_resume sendChat_voice]; try apply Hcatch;
    destruct (negb (ok code)); try discriminate; apply Hcatch.
Qed.

Lemma sendChat_failure_surfaced_witness :
  let w := run [ChangeMessage "hi"; ClickSend] (mount false) in
  let r := ChatReply (Response 503 (inl (Error "no body"))) in
  tasks w !! 2 = Some (ChatPending None false "Arista-PlayAI" (105 # 100)%Q)
  /\ upstream_failure (ChatPending None false "Arista-PlayAI" (105 # 100)%Q) r = true
  /\ status (ui (deliver 2 r w)) = "Error: Chat failed (503)"
  /\ String.prefix "Error:" (status (ui (deliver 2 r w))) = true
  /\ loading (ui (deliver 2 r w)) = false
  /\ sent (deliver 2 r w) = sent w.
Proof.
  intros w r.
  assert (Hn : tasks w !! 2
               = Some (ChatPending None false "Arista-PlayAI" (105 # 100)%Q))
    by reflexivity.
  assert (Hf : upstream_failure
                 (ChatPending None false "Arista-PlayAI" (105 # 100)%Q) r = true)
    by reflexivity.
  destruct (sendChat_failure_surfaced w 2 _ r Hn Hf) as (Hp & Hl & Hs & _).
  repeat split; try assumption; reflexivity.
Defined.

(** ** [sendChat], stage by stage *)

Lemma truthy_trim (s : string) :
  JsString.truthy (JsString.trim s) = true <-> JsString.trim s <> "".
Proof.
  unfold JsString.truthy. rewrite negb_true_iff.
  split.
  - intros H Heq. rewrite Heq in H. discriminate.
  - intros H. by apply String.eqb_neq.
Qed.

(** The synchronous part of [sendChat] on a message that is not blank. *)
Lemma sendChat_started (w : World) :
  JsString.trim (message (ui w)) <> "" ->
  exists st1 : State,
    sendChat w
    = fetch (PostChat (JsString.trim (message (ui w))) (currentSessionId (ui w))
                      "iroha")
            (ChatPending (currentSessionId (ui w)) (textOnly (ui w))
                         (voice (ui w)) (speed (ui w)))
            (mkWorld st1 (tasks w) (sent w))
    /\ history st1
       = (history (ui w) ++ [msg user (JsString.trim (message (ui w)))])%list
    /\ currentSessionId st1 = currentSessionId (ui w)
    /\ message st1 = "" /\ loading st1 = true /\ status st1 = "Thinking...".
Proof.
  intros Hne. apply truthy_trim in Hne. unfold sendChat. rewrite Hne. cbn [negb].
  destruct w as [st ts rs]. destruct st. cbn.
  eexists. split; [reflexivity |]. cbn. repeat split.
Qed.

(** The voice stage touches [audioUrl], [status] and [loading] only, and
    sends nothing. *)
Lemma sendChat_voice_frame (r : Fetched string) (w : World) :
  history (ui (sendChat_voice r w)) = history (ui w)
  /\ currentSessionId (ui (sendChat_voice r w)) = currentSessionId (ui w)
  /\ sent (sendChat_voice r w) = sent w.
Proof.
  destruct w as [[] ? ?].
  destruct r as [e | code [e | url]]; cbn; try destruct (ok code); cbn;
    repeat split.
Qed.

Lemma deliver_voice_frame (n : nat) (r : Fetched string) (w : World) :
  history (ui (deliver n (VoiceReply r) w)) = history (ui w)
  /\ currentSessionId (ui (deliver n (VoiceReply r) w)) = currentSessionId (ui w)
  /\ sent (deliver n (VoiceReply r) w) = sent w.
Proof.
  unfold deliver. destruct (tasks w !! n) as [[] |]; cbn [resume default];
    try done.
  apply (sendChat_voice_frame r (mkWorld (ui w) (delete n (tasks w)) (sent w))).
Qed.

(** The chat stage on a well-read answer. *)
Lemma sendChat_resume_ok (c : option Z) (t : bool) (v : string) (s : Q)
    (code : nat) (data : ChatData) (w : World) :
  ok code = true ->
  let w2 := sendChat_resume c t v s (Response code (inr data)) w in
  history (ui w2) = (history (ui w) ++ [msg assistant (response data)])%list
  /\ currentSessionId (ui w2)
     = match new_session_id data c with
       | Some n => Some n
       | None => currentSessionId (ui w)
       end
  /\ sent w2
     = (sent w
        ++ match new_session_id data c with
           | Some _ => [GetSessions]
           | None => []
           end
        ++ if t then [] else [PostVoice (response data) v s])%list.
Proof.
  intros Hok. cbn [sendChat_resume]. rewrite Hok. cbn [negb].
  destruct w as [[] ts rs].
  destruct (new_session_id data c) as [n |], t; cbn; repeat split;
    by rewrite <- ?app_assoc, ?app_nil_r.
Qed.

(** The chat stage on a failure. *)
Lemma sendChat_resume_failed (c : option Z) (t : bool) (v : string) (s : Q)
    (r : Fetched ChatData) (w : World) :
  failed r = true ->
  exists e : Thrown,
    sendChat_resume c t v s r w = sendChat_catch e w.
Proof.
  destruct r as [e | code [e | data]]; cbn; intros Hf.
  - by exists e.
  - destruct (ok code); cbn; eauto.
  - rewrite Hf. eauto.
Qed.

(** A run of [sendChat] on a message that is not blank: the chat stage
    happens, then the voice stage when the chat stage has asked for it. *)
Lemma sendChat_run_unfold (chat : Fetched ChatData) (voice_r : Fetched string)
    (w : World) :
  JsString.trim (message (ui w)) <> "" ->
  exists (st1 : State) (w2 : World),
    history st1
    = (history (ui w) ++ [msg user (JsString.trim (message (ui w)))])%list
    /\ currentSessionId st1 = currentSessionId (ui w)
    /\ w2 = sendChat_resume (currentSessionId (ui w)) (textOnly (ui w))
              (voice (ui w)) (speed (ui w)) chat
              (mkWorld st1 (tasks w)
                 (sent w ++ [PostChat (JsString.trim (message (ui w)))
                               (currentSessionId (ui w)) "iroha"]))
    /\ sendChat_run chat voice_r w
       = if Nat.ltb (length (tasks w)) (length (tasks w2))
            && is_VoicePending (last (tasks w2))
         then deliver (length (tasks w2) - 1) (VoiceReply voice_r) w2
         else w2.
Proof.
  intros Hne. destruct (sendChat_started w Hne) as (st1 & Hsend & Hh & Hc & _).
  eexists st1, _. split; [exact Hh | split; [exact Hc | split; [reflexivity |]]].
  unfold sendChat_run. rewrite Hsend.
  replace (length (tasks w)) with (length (tasks (mkWorld st1 (tasks w) (sent w))))
    by reflexivity.
  rewrite deliver_fetch. cbn [resume default from_option id ui tasks sent].
  cbn [fetch tasks]. rewrite length_app. cbn [length].
  replace (Nat.ltb (length (tasks w)) (length (tasks w) + 1)) with true
    by (symmetry; apply Nat.ltb_lt; lia).
  reflexivity.
Qed.

Lemma sendChat_run_stages (chat : Fetched ChatData) (voice_r : Fetched string)
    (w : World) :
  JsString.trim (message (ui w)) <> "" ->
  exists (st1 : State) (w2 : World),
    history st1
    = (history (ui w) ++ [msg user (JsString.trim (message (ui w)))])%list
    /\ currentSessionId st1 = currentSessionId (ui w)
    /\ w2 = sendChat_resume (currentSessionId (ui w)) (textOnly (ui w))
              (voice (ui w)) (speed (ui w)) chat
              (mkWorld st1 (tasks w)
                 (sent w ++ [PostChat (JsString.trim (message (ui w)))
                               (currentSessionId (ui w)) "iroha"]))
    /\ (sendChat_run chat voice_r w = w2
        \/ exists n, sendChat_run chat voice_r w = deliver n (VoiceReply voice_r) w2).
Proof.
  intros Hne.
  destruct (sendChat_run_unfold chat voice_r w Hne)
    as (st1 & w2 & Hh & Hc & Hw2 & Hrun).
  exists st1, w2. split; [exact Hh | split; [exact Hc | split; [exact Hw2 |]]].
  rewrite Hrun. destruct (_ && _); eauto.
Qed.

(** The voice stage always ends with [loading] false. *)
Lemma sendChat_voice_loading (r : Fetched string) (w : World) :
  loading (ui (sendChat_voice r w)) = false.
Proof.
  destruct w as [[] ? ?].
  destruct r as [e | code [e | url]]; cbn; try destruct (ok code); reflexivity.
Qed.

(** What the chat stage leaves pending: it has ended ([loading] is false, and
    at most a fetch of the session list was added), or it is suspended at the
    voice fetch, which is the last one pending. *)
Lemma sendChat_resume_tasks (c : option Z) (t : bool) (v : string) (s : Q)
    (r : Fetched ChatData) (w : World) :
  let w2 := sendChat_resume c t v s r w in
  (loading (ui w2) = false
   /\ (tasks w2 = tasks w \/ tasks w2 = (tasks w ++ [SessionsPending None])%list))
  \/ (exists l : list Task,
        tasks w2 = (l ++ [VoicePending])%list /\ length (tasks w) <= length l).
Proof.
  destruct w as [[] ts rs].
  destruct r as [e | code [e | data]]; cbn; try destruct (ok code); cbn;
    try (left; split; [reflexivity | by left]).
  destruct (new_session_id data c), t; cbn.
  - left. split; [reflexivity | by right].
  - right. exists (ts ++ [SessionsPending None])%list.
    rewrite length_app. cbn. split; [done | lia].
  - left. split; [reflexivity | by left].
  - right. exists ts. split; [done | lia].
Qed.

(** [loading] is false again at the end of every run of [sendChat], whether it
    ends well or in the [catch]. *)
Lemma sendChat_run_loading (chat : Fetched ChatData) (voice_r : Fetched string)
    (w : World) :
  JsString.trim (message (ui w)) <> "" ->
  loading (ui (sendChat_run chat voice_r w)) = false.
Proof.
  intros Hne.
  destruct (sendChat_run_unfold chat voice_r w Hne)
    as (st1 & w2 & _ & _ & Hw2 & ->).
  pose proof (sendChat_resume_tasks (currentSessionId (ui w)) (textOnly (ui w))
                (voice (ui w)) (speed (ui w)) chat
                (mkWorld st1 (tasks w)
                   (sent w ++ [PostChat (JsString.trim (message (ui w)))
                                 (currentSessionId (ui w)) "iroha"]))) as Ht.
  cbn zeta in Ht. rewrite <- Hw2 in Ht. cbn [tasks] in Ht.
  destruct Ht as [[Hl [Ht | Ht]] | (l & Ht & Hlen)]; rewrite Ht.
  - by rewrite Nat.ltb_irrefl.
  - rewrite last_snoc. cbn [is_VoicePending]. by rewrite andb_false_r.
  - rewrite last_snoc, length_app. cbn [is_VoicePending length].
    replace (Nat.ltb (length (tasks w)) (length l + 1)) with true
      by (symmetry; apply Nat.ltb_lt; lia).
    cbn [andb]. replace (length l + 1 - 1) with (length l) by lia.
    unfold deliver. rewrite Ht, list_lookup_middle by done.
    cbn [resume default from_option id]. apply sendChat_voice_loading.
Qed.

(** The voice stage on a failure. *)
Lemma sendChat_voice_failed (r : Fetched string) (w : World) :
  failed r = true ->
  exists e : Thrown, sendChat_voice r w = sendChat_catch e w.
Proof.
  destruct r as [e | code [e | url]]; cbn; intros Hf.
  - by exists e.
  - destruct (ok code); cbn; eauto.
  - rewrite Hf. eauto.
Qed.

(** With voice asked for, the chat stage on a well-read answer is suspended at
    the voice fetch. *)
Lemma sendChat_resume_voice_pending (c : option Z) (v : string) (s : Q)
    (code : nat) (data : ChatData) (w : World) :
  ok code = true ->
  exists l : list Task,
    tasks (sendChat_resume c false v s (Response code (inr data)) w)
    = (l ++ [VoicePending])%list
    /\ length (tasks w) <= length l.
Proof.
  intros Hok. cbn [sendChat_resume]. rewrite Hok. cbn [negb].
  destruct w as [st ts rs]. destruct (new_session_id data c); cbn.
  - exists (ts ++ [SessionsPending None])%list. rewrite length_app. cbn.
    split; [done | lia].
  - exists ts. split; [done | lia].
Qed.

(** A run of [sendChat] in which the chat request fails, or the voice request
    is made and fails, ends with the error in the status. *)
Lemma sendChat_run_failure (chat : Fetched ChatData) (voice_r : Fetched string)
    (w : World) :
  JsString.trim (message (ui w)) <> "" ->
  failed chat = true \/ (textOnly (ui w) = false /\ failed voice_r = true) ->
  String.prefix "Error:" (status (ui (sendChat_run chat voice_r w))) = true.
Proof.
  intros Hne Hfail.
  destruct (sendChat_run_unfold chat voice_r w Hne)
    as (st1 & w2 & _ & _ & Hw2 & ->).
  set (w1 := mkWorld st1 (tasks w)
               (sent w ++ [PostChat (JsString.trim (message (ui w)))
                             (currentSessionId (ui w)) "iroha"])) in Hw2.
  destruct (failed chat) eqn:Hchat.
  - destruct (sendChat_resume_failed (currentSessionId (ui w)) (textOnly (ui w))
                (voice (ui w)) (speed (ui w)) chat w1 Hchat) as [e He].
    rewrite He in Hw2. destruct (sendChat_catch_spec e w1) as (Hs & _ & _ & _ & Ht & _).
    rewrite Hw2, Ht. cbn [tasks w1]. rewrite Nat.ltb_irrefl. cbn [andb].
    rewrite Hs. apply prefix_Error.
  - destruct Hfail as [Hf | [Htext Hvoice]]; [discriminate |].
    destruct chat as [e | code [e | data]]; cbn in Hchat; try discriminate.
    apply negb_false_iff in Hchat. rewrite Htext in Hw2.
    destruct (sendChat_resume_voice_pending (currentSessionId (ui w)) (voice (ui w))
                (speed (ui w)) code data w1 Hchat) as (l & Ht & Hlen).
    rewrite <- Hw2 in Ht. cbn [tasks w1] in Hlen.
    rewrite Ht, last_snoc, length_app. cbn [is_VoicePending length].
    replace (Nat.ltb (length (tasks w)) (length l + 1)) with true
      by (symmetry; apply Nat.ltb_lt; lia).
    cbn [andb]. replace (length l + 1 - 1) with (length l) by lia.
    unfold deliver. rewrite Ht, list_lookup_middle by done.
    cbn [resume default from_option id].
    destruct (sendChat_voice_failed voice_r
                (mkWorld (ui w2) (delete (length l) (l ++ [VoicePending])%list) (sent w2))
                Hvoice) as [e ->].
    destruct (sendChat_catch_spec e
                (mkWorld (ui w2) (delete (length l) (l ++ [VoicePending])%list) (sent w2)))
      as (-> & _).
    apply prefix_Error.
Qed.

Lemma reply_entries_failed (chat : Fetched ChatData) :
  failed chat = true -> reply_entries chat = [].
Proof.
  destruct chat as [e | code [e | data]]; cbn; try done.
  by destruct (ok code).
Qed.

(** ** C1 *)

(** C1, as the code has it.  After [sendChat] on a message that is not blank,
    the history is the old history, then one user entry (the trimmed message),
    then, when the chat request is answered well, one assistant entry (the
    response text); when the chat request fails the user entry is the only one
    appended.  The voice request has no part in it. *)
Theorem sendChat_appends (chat : Fetched ChatData) (voice_r : Fetched string)
    (w : World) :
  ~ JsString.Blank (message (ui w)) ->
  history (ui (sendChat_run chat voice_r w))
  = (history (ui w)
     ++ msg user (JsString.trim (message (ui w))) :: reply_entries chat)%list.
Proof.
  intros Hnb. pose proof (not_Blank_trim _ Hnb) as Hne.
  destruct (sendChat_run_stages chat voice_r w Hne)
    as (st1 & w2 & Hh & _ & Hw2 & Hrun).
  assert (Hrun' : history (ui (sendChat_run chat voice_r w)) = history (ui w2)).
  { destruct Hrun as [-> | [n ->]]; [done |].
    apply deliver_voice_frame. }
  rewrite Hrun', Hw2. clear Hrun Hrun' Hw2.
  destruct (failed chat) eqn:Hf.
  - destruct (sendChat_resume_failed (currentSessionId (ui w)) (textOnly (ui w))
                (voice (ui w)) (speed (ui w)) chat
                (mkWorld st1 (tasks w)
                   (sent w ++ [PostChat (JsString.trim (message (ui w)))
                                 (currentSessionId (ui w)) "iroha"])) Hf)
      as [e ->].
    destruct (sendChat_catch_spec e
                (mkWorld st1 (tasks w)
                   (sent w ++ [PostChat (JsString.trim (message (ui w)))
                                 (currentSessionId (ui w)) "iroha"])))
      as (_ & _ & -> & _).
    cbn [ui]. by rewrite Hh, (reply_entries_failed _ Hf).
  - destruct chat as [e | code [e | data]]; cbn in Hf; try discriminate.
    apply negb_false_iff in Hf.
    destruct (sendChat_resume_ok (currentSessionId (ui w)) (textOnly (ui w))
                (voice (ui w)) (speed (ui w)) code data
                (mkWorld st1 (tasks w)
                   (sent w ++ [PostChat (JsString.trim (message (ui w)))
                                 (currentSessionId (ui w)) "iroha"])) Hf)
      as (-> & _).
    cbn [ui reply_entries]. rewrite Hh, Hf. by rewrite <- app_assoc.
Qed.

Lemma sendChat_appends_witness :
  let w := on_ui (setMessage " hi ") (mount false) in
  let chat := Response 200 (inr (mkChatData "hello" None)) in
  ~ JsString.Blank (message (ui w))
  /\ history (ui (sendChat_run chat (Rejected (Error "Failed to fetch")) w))
     = [msg user "hi"; msg assistant "hello"].
Proof.
  intros w chat.
  assert (Hne : ~ JsString.Blank (message (ui w))).
  { intros Hb. apply trim_Blank in Hb. vm_compute in Hb. discriminate Hb. }
  split; [exact Hne |].
  rewrite (sendChat_appends chat (Rejected (Error "Failed to fetch")) w Hne).
  reflexivity.
Defined.

(** C1 as stated fails: when the chat request is answered with status 503, the
    run of [sendChat] ends with the user entry alone in the history, and no
    assistant entry at all. *)
Lemma sendChat_failed_chat_one_entry :
  let w := on_ui (setMessage "hi") (mount false) in
  let w' := sendChat_run (Response 503 (inl (Error "Unexpected token")))
                         (Rejected (Error "Failed to fetch")) w in
  JsString.trim (message (ui w)) = "hi"
  /\ history (ui w) = []
  /\ history (ui w') = [msg user "hi"]
  /\ ~ exists text : string,
         history (ui w')
         = (history (ui w) ++ [msg user "hi"; msg assistant text])%list.
Proof.
  intros w w'. repeat split. intros [text Heq]. vm_compute in Heq. discriminate.
Qed.

(** ** C5 *)

(** C5, as the code has it.  When [sendChat] is called with no current session
    and the chat request is answered well with a [metadata.session_id] that is
    not 0 (an id of 0 is falsy and is treated as absent), then at the end
    [currentSessionId] is that id, and the session list has been fetched again
    right after the chat request. *)
Theorem sendChat_new_session (code : nat) (data : ChatData)
    (voice_r : Fetched string) (sid : Z) (w : World) :
  ~ JsString.Blank (message (ui w)) ->
  currentSessionId (ui w) = None ->
  ok code = true ->
  metadata data ≫= session_id = Some sid ->
  sid <> 0%Z ->
  let w' := sendChat_run (Response code (inr data)) voice_r w in
  currentSessionId (ui w') = Some sid
  /\ exists rest : list Request,
       sent w'
       = (sent w
          ++ [PostChat (JsString.trim (message (ui w))) None "iroha"; GetSessions]
          ++ rest)%list.
Proof.
  intros Hnb Hcur Hok Hsid Hnz w'. pose proof (not_Blank_trim _ Hnb) as Hne.
  destruct (sendChat_run_stages (Response code (inr data)) voice_r w Hne)
    as (st1 & w2 & _ & Hc & Hw2 & Hrun).
  assert (Hnew : new_session_id data (currentSessionId (ui w)) = Some sid).
  { unfold new_session_id. rewrite Hsid, Hcur. cbn.
    unfold JsString.truthy_num. by apply Z.eqb_neq in Hnz as ->. }
  assert (Hrun' : currentSessionId (ui w') = currentSessionId (ui w2)
                  /\ sent w' = sent w2).
  { subst w'. destruct Hrun as [-> | [n ->]]; [done |].
    split; apply deliver_voice_frame. }
  destruct Hrun' as [-> ->].
  destruct (sendChat_resume_ok (currentSessionId (ui w)) (textOnly (ui w))
              (voice (ui w)) (speed (ui w)) code data
              (mkWorld st1 (tasks w)
                 (sent w ++ [PostChat (JsString.trim (message (ui w)))
                               (currentSessionId (ui w)) "iroha"])) Hok)
    as (_ & Hcur2 & Hsent2).
  rewrite <- Hw2 in Hcur2, Hsent2. rewrite Hnew in Hcur2, Hsent2.
  split; [exact Hcur2 |].
  rewrite Hsent2. cbn [sent]. rewrite Hcur.
  eexists. rewrite <- !app_assoc. reflexivity.
Qed.

Lemma sendChat_new_session_witness :
  let w := on_ui (setMessage "hi") (mount false) in
  let data := mkChatData "hello" (Some (mkMetadata (Some 7%Z) (Some "0.42"))) in
  let w' := sendChat_run (Response 200 (inr data))
                         (Response 200 (inr "blob:audio")) w in
  ~ JsString.Blank (message (ui w))
  /\ currentSessionId (ui w) = None
  /\ ok 200 = true
  /\ metadata data ≫= session_id = Some 7%Z
  /\ currentSessionId (ui w') = Some 7%Z.
Proof.
  intros w data w'.
  assert (Hne : ~ JsString.Blank (message (ui w))).
  { intros Hb. apply trim_Blank in Hb. vm_compute in Hb. discriminate Hb. }
  assert (Hnz : 7%Z <> 0%Z) by lia.
  destruct (sendChat_new_session 200 data (Response 200 (inr "blob:audio")) 7 w
              Hne eq_refl eq_refl eq_refl Hnz) as [Hcur _].
  split; [exact Hne |]. do 3 (split; [reflexivity |]). exact Hcur.
Defined.

(** C5 as stated fails for the session id 0: the test
    [data.metadata?.session_id && !currentSessionId] is false for it, and
    [currentSessionId] stays null. *)
Lemma sendChat_session_id_zero_ignored :
  let w := on_ui (setMessage "hi") (mount false) in
  let data := mkChatData "hello" (Some (mkMetadata (Some 0%Z) None)) in
  let w' := sendChat_run (Response 200 (inr data))
                         (Response 200 (inr "blob:audio")) w in
  JsString.trim (message (ui w)) = "hi"
  /\ currentSessionId (ui w) = None
  /\ metadata data ≫= session_id = Some 0%Z
  /\ history (ui w') = [msg user "hi"; msg assistant "hello"]
  /\ currentSessionId (ui w') = None
  /\ currentSessionId (ui w') <> Some 0%Z.
Proof. intros w data w'. repeat split. vm_compute. discriminate. Qed.

(** ** C6 *)

Lemma store_delete_not_in (sessionId : Z) (db : list Session) :
  sessionId ∉ map s_id (store_delete sessionId db).
Proof.
  unfold store_delete. rewrite list_elem_of_In, in_map_iff.
  intros (s & Hid & Hin). apply filter_In in Hin as [_ Hne].
  rewrite Hid, Z.eqb_refl in Hne. discriminate.
Qed.

(** A run of [deleteSession] whose DELETE fetch gives a response (of any
    status: it is not looked at). *)
Lemma deleteSession_run_resolved (sessionId : Z) (code : nat) (body : Thrown + unit)
    (list_r : Fetched (option (list Session))) (w : World) :
  deleteSession_run sessionId (Response code body) list_r w
  = deleteSession_finish (Some (sessionId, currentSessionId (ui w)))
      (loadSessions_resume list_r
         (mkWorld (ui w) (tasks w)
                  (sent w ++ [DeleteSession sessionId true; GetSessions]))).
Proof.
  unfold deleteSession_run, deleteSession.
  rewrite deliver_fetch. cbn [resume default from_option id deleteSession_resume].
  unfold loadSessions_from.
  cbn [fetch tasks ui sent]. rewrite length_app. cbn [length].
  replace (Nat.ltb (length (tasks w)) (length (tasks w) + 1)) with true
    by (symmetry; apply Nat.ltb_lt; lia).
  pose proof (deliver_fetch GetSessions
                (SessionsPending (Some (sessionId, currentSessionId (ui w))))
                (SessionsReply list_r)
                (mkWorld (ui w) (tasks w) (sent w ++ [DeleteSession sessionId true])))
    as Hd.
  cbn [fetch tasks ui sent resume default from_option id] in Hd. rewrite Hd.
  by rewrite <- app_assoc.
Qed.

(** A run of [deleteSession] whose DELETE fetch throws: the [catch] logs and
    nothing else happens. *)
Lemma deleteSession_run_rejected (sessionId : Z) (e : Thrown)
    (list_r : Fetched (option (list Session))) (w : World) :
  deleteSession_run sessionId (Rejected e) list_r w
  = mkWorld (ui w) (tasks w) (sent w ++ [DeleteSession sessionId true]).
Proof.
  unfold deleteSession_run, deleteSession.
  rewrite deliver_fetch. cbn [resume default from_option id deleteSession_resume tasks].
  by rewrite Nat.ltb_irrefl.
Qed.

(** C6, as the code has it.  [deleteSession] sends a DELETE with
    [permanent=true].  When that fetch gives a response, the session list is
    fetched again, and, if the id was the current session, the conversation is
    reset: the history is empty and [currentSessionId] is null.  When moreover
    the list is read well from a store in which the session has been deleted,
    the id is no longer in the sidebar list.  When the DELETE fetch throws,
    the state is left as it was. *)
Theorem deleteSession_effect (sessionId : Z) (code : nat) (body : Thrown + unit)
    (list_r : Fetched (option (list Session))) (w : World) :
  let w' := deleteSession_run sessionId (Response code body) list_r w in
  sent w' = (sent w ++ [DeleteSession sessionId true; GetSessions])%list
  /\ (forall db : list Session,
        list_r = store_list (store_delete sessionId db) ->
        sessions (ui w') = store_delete sessionId db
        /\ sessionId ∉ map s_id (sessions (ui w')))
  /\ (currentSessionId (ui w) = Some sessionId ->
      history (ui w') = [] /\ currentSessionId (ui w') = None)
  /\ (forall e : Thrown,
        ui (deleteSession_run sessionId (Rejected e) list_r w) = ui w).
Proof.
  intros w'. subst w'. rewrite deleteSession_run_resolved.
  split; [| split; [| split]].
  - destruct w as [st ts rs]. unfold deleteSession_finish. cbn [ui tasks sent].
    destruct (same_session _ _), list_r as [e | c [e | d]]; cbn;
      try destruct (ok c); reflexivity.
  - intros db ->.
    assert (Hs : sessions (ui (deleteSession_finish
                   (Some (sessionId, currentSessionId (ui w)))
                   (loadSessions_resume (store_list (store_delete sessionId db))
                      (mkWorld (ui w) (tasks w)
                         (sent w ++ [DeleteSession sessionId true; GetSessions])))))
                 = store_delete sessionId db).
    { destruct w as [st ts rs]. unfold deleteSession_finish. cbn [ui tasks sent].
      destruct (same_session _ _), st; reflexivity. }
    rewrite Hs. split; [done | apply store_delete_not_in].
  - intros Hcur. destruct w as [st ts rs]. cbn [ui tasks sent] in *.
    unfold deleteSession_finish, same_session. rewrite Hcur, Z.eqb_refl.
    destruct list_r as [e | c [e | d]], st; cbn; try destruct (ok c); by split.
  - intros e. by rewrite deleteSession_run_rejected.
Qed.

Lemma deleteSession_effect_witness :
  let w := page_with_session7 in
  let w' := deleteSession_run 7 (Response 200 (inr ()))
              (store_list (store_delete 7 [session7])) w in
  currentSessionId (ui w) = Some 7%Z
  /\ (7%Z ∈ map s_id (sessions (ui w)))
  /\ (7%Z ∉ map s_id (sessions (ui w')))
  /\ history (ui w') = [] /\ currentSessionId (ui w') = None.
Proof.
  intros w w'.
  destruct (deleteSession_effect 7 200 (inr ())
              (store_list (store_delete 7 [session7])) w)
    as (_ & Hlist & Hreset & _).
  destruct (Hlist [session7] eq_refl) as [_ Hnot].
  destruct (Hreset eq_refl) as [Hh Hc].
  split; [reflexivity |]. split; [by apply list_elem_of_singleton |].
  split; [exact Hnot |]. split; [exact Hh | exact Hc].
Defined.

(** C6 as stated fails: when the DELETE fetch throws, [deleteSession] ends
    with the session still in the sidebar list and the conversation not
    reset. *)
Lemma deleteSession_rejected_keeps_session :
  let w := page_with_session7 in
  let w' := deleteSession_run 7 (Rejected (Error "Failed to fetch"))
              (store_list []) w in
  currentSessionId (ui w) = Some 7%Z
  /\ sent w' = (sent w ++ [DeleteSession 7 true])%list
  /\ (7%Z ∈ map s_id (sessions (ui w')))
  /\ history (ui w') <> []
  /\ currentSessionId (ui w') = Some 7%Z.
Proof.
  intros w w'. split; [reflexivity |]. split; [reflexivity |].
  split; [by apply list_elem_of_singleton |]. split; [| reflexivity].
  vm_compute. discriminate.
Qed.

(** ** C2 *)

(** The send button is disabled while a request is in flight. *)
Lemma send_button_disabled_while_loading (w : World) :
  loading (ui w) = true -> step ClickSend w = w.
Proof. intros Hl. cbn. by rewrite Hl. Qed.

(** The Enter key in the textarea calls [sendChat] whatever [loading] is: the
    textarea is disabled while listening only, and neither [handleKeyDown] nor
    [sendChat] looks at [loading]. *)
Lemma enter_key_ignores_loading (w : World) :
  isListening (ui w) = false ->
  step (KeyDown "Enter" false) w = sendChat w.
Proof. intros Hl. cbn. by rewrite Hl. Qed.

(** C2, at the input where the code departs from it.  On a page that awaits
    the answer to "hi" ([loading] is true, one chat request is outstanding),
    the send button does nothing, but the Enter key in the textarea, which is
    disabled by [isListening] only, calls [sendChat]: a second chat request is
    sent and two are outstanding. *)
Theorem enter_key_starts_second_request :
  let w := page_awaiting_answer in
  let w' := step (KeyDown "Enter" false) w in
  loading (ui w) = true
  /\ isListening (ui w) = false
  /\ List.filter is_ChatPending (tasks w)
     = [ChatPending None false "Arista-PlayAI" (105 # 100)%Q]
  /\ step ClickSend w = w
  /\ sent w' = (sent w ++ [PostChat "again" None "iroha"])%list
  /\ List.filter is_ChatPending (tasks w')
     = [ChatPending None false "Arista-PlayAI" (105 # 100)%Q;
        ChatPending None false "Arista-PlayAI" (105 # 100)%Q].
Proof. repeat split. Qed.

(** ** C7 *)

Lemma in_slider_initial : in_slider (speed initialState).
Proof. split; unfold Qle; cbn; lia. Qed.

Lemma in_slider_slider_value (notch : nat) : in_slider (slider_value notch).
Proof.
  unfold in_slider, slider_value, slider_min, slider_max, slider_step.
  assert (H : (0 <= Z.of_nat (Nat.min notch 30) <= 30)%Z) by lia.
  revert H. generalize (Z.of_nat (Nat.min notch 30)). intros z Hz.
  unfold Qle, Qplus, Qmult, inject_Z. cbn [Qnum Qden]. lia.
Qed.

(** The handlers that leave the speed alone. *)
Lemma sendChat_speed (w : World) : speed (ui (sendChat w)) = speed (ui w).
Proof.
  unfold sendChat. destruct (negb _); [done |]. by destruct w as [[] ? ?].
Qed.

Lemma sendChat_resume_speed c t v s r (w : World) :
  speed (ui (sendChat_resume c t v s r w)) = speed (ui w).
Proof.
  destruct w as [[] ts rs].
  destruct r as [e | code [e | data]]; cbn; try destruct (ok code); cbn;
    try reflexivity.
  destruct (new_session_id data c), t; reflexivity.
Qed.

Lemma sendChat_voice_speed r (w : World) :
  speed (ui (sendChat_voice r w)) = speed (ui w).
Proof.
  destruct w as [[] ts rs].
  destruct r as [e | code [e | url]]; cbn; try destruct (ok code); reflexivity.
Qed.

Lemma loadSessions_resume_speed r (w : World) :
  speed (ui (loadSessions_resume r w)) = speed (ui w).
Proof.
  destruct w as [[] ts rs].
  destruct r as [e | code [e | d]]; cbn; try destruct (ok code); reflexivity.
Qed.

Lemma deleteSession_finish_speed k (w : World) :
  speed (ui (deleteSession_finish k w)) = speed (ui w).
Proof.
  destruct w as [[] ts rs]. destruct k as [[sid c] |]; cbn; [| done].
  by destruct (same_session c sid).
Qed.

Lemma loadSession_resume_speed sid r (w : World) :
  speed (ui (loadSession_resume sid r w)) = speed (ui w).
Proof.
  destruct w as [[] ts rs].
  destruct r as [e | code [e | d]]; cbn; try destruct (ok code); reflexivity.
Qed.

Lemma deleteSession_resume_speed sid c r (w : World) :
  speed (ui (deleteSession_resume sid c r w)) = speed (ui w).
Proof. by destruct r. Qed.

(** [loadConfig] is where the speed comes from the network. *)
Lemma loadConfig_resume_speed (r : Fetched VoiceConfig) (w : World) :
  speed (ui (loadConfig_resume r w)) = speed (ui w)
  \/ exists code cfg,
       r = Response code (inr cfg)
       /\ speed (ui (loadConfig_resume r w)) = default (105 # 100)%Q (default_speed cfg).
Proof.
  destruct w as [[] ts rs].
  destruct r as [e | code [e | cfg]]; cbn; try (by left).
  destruct (ok code); [right | by left]. by exists code, cfg.
Qed.

Lemma deliver_speed (n : nat) (r : Reply) (w : World) :
  config_speed_ok (Receive n r) ->
  in_slider (speed (ui w)) -> in_slider (speed (ui (deliver n r w))).
Proof.
  intros Hcfg Hw. unfold deliver.
  destruct (tasks w !! n) as [t |]; [| done].
  set (w0 := mkWorld (ui w) (delete n (tasks w)) (sent w)).
  destruct t, r as [r | r | r | r | r | r]; cbn [resume default from_option id];
    try done.
  - by rewrite sendChat_resume_speed.
  - by rewrite sendChat_voice_speed.
  - destruct (loadConfig_resume_speed r w0) as [-> | (code & cfg & -> & ->)];
      [done |]. exact Hcfg.
  - by rewrite deleteSession_finish_speed, loadSessions_resume_speed.
  - by rewrite loadSession_resume_speed.
  - by rewrite deleteSession_resume_speed.
Qed.

Lemma listening_keeps_speed :
  keeps_speed startListening /\ keeps_speed stopListening
  /\ keeps_speed (setIsListening false) /\ forall t, keeps_speed (onresult t).
Proof.
  repeat split; unfold startListening, stopListening, onresult;
    keeps_speed_by_cases.
Qed.

Lemma resets_keep_speed : keeps_speed clearAll /\ keeps_speed createNewSession.
Proof. split; keeps_speed_by_cases. Qed.

Lemma annotations_keep_speed :
  (forall i emoji, keeps_speed (addReaction i emoji))
  /\ (forall i, keeps_speed (toggleBookmark i))
  /\ (forall p, keeps_speed (setShowReactionPopup p)).
Proof. repeat split; keeps_speed_by_cases. Qed.

Lemma inputs_keep_speed :
  (forall v, keeps_speed (setMessage v))
  /\ (forall v, keeps_speed (setVoice v))
  /\ (forall v, keeps_speed (setTextOnly v)).
Proof. repeat split; keeps_speed_by_cases. Qed.

Lemma speed_setSpeed (v : Q) (st : State) : speed (setSpeed v st) = v.
Proof. by destruct st. Qed.

Lemma on_ui_speed (f : State -> State) (w : World) :
  keeps_speed f -> speed (ui (on_ui f w)) = speed (ui w).
Proof. intros Hf. apply Hf. Qed.

Lemma step_speed (e : Event) (w : World) :
  config_speed_ok e ->
  in_slider (speed (ui w)) -> in_slider (speed (ui (step e w))).
Proof.
  intros Hcfg Hw.
  destruct listening_keeps_speed as (Hstart & Hstop & Hend & Hres).
  destruct resets_keep_speed as (Hclear & Hnew).
  destruct annotations_keep_speed as (Hreact & Hbook & Hpopup).
  destruct inputs_keep_speed as (Hmsg & Hvoice & Htext).
  destruct e; cbn [step].
  - destruct (isListening _); [done |]. by rewrite on_ui_speed.
  - destruct (isListening _); [done |]. unfold handleKeyDown.
    destruct (_ && _); [| done]. by rewrite sendChat_speed.
  - destruct (_ || _); [done |]. by rewrite sendChat_speed.
  - by rewrite on_ui_speed.
  - by rewrite on_ui_speed.
  - by destruct (sessions _ !! _).
  - by destruct (sessions _ !! _).
  - destruct (Nat.ltb _ _); [| done]. by rewrite on_ui_speed.
  - destruct (Nat.ltb _ _); [| done]. by rewrite on_ui_speed.
  - destruct (history _ !! _); [| done].
    destruct (availableReactions !! _); [| done]. by rewrite on_ui_speed.
  - destruct (decide _); [| done]. by rewrite on_ui_speed.
  - cbn [on_ui ui]. rewrite speed_setSpeed. apply in_slider_slider_value.
  - by rewrite on_ui_speed.
  - destruct (isSupported _); [| done].
    destruct (isListening _); by rewrite on_ui_speed.
  - destruct (isSupported _); [| done]. by rewrite on_ui_speed.
  - by rewrite on_ui_speed.
  - by apply deliver_speed.
Qed.

Lemma run_speed (evs : list Event) (w : World) :
  Forall config_speed_ok evs ->
  in_slider (speed (ui w)) -> in_slider (speed (ui (run evs w))).
Proof.
  revert w. induction evs as [| e evs IH]; intros w Hall Hw; [done |].
  inversion Hall as [| ? ? He Hevs]; subst. cbn [run fold_left].
  apply IH; [exact Hevs |]. by apply step_speed.
Qed.

(** C7, as the code has it.  The bounds [speed_min] and [speed_max] of the
    fetched configuration are neither kept nor looked at.  The bounds that
    hold are those written on the slider, 0.5 and 2: in every state that the
    page reaches, the speed lies between them, provided that the default
    speed of every configuration received does. *)
Theorem speed_within_slider_bounds (speechRecognition : bool) (evs : list Event) :
  Forall config_speed_ok evs ->
  (slider_min <= speed (ui (run evs (mount speechRecognition))))%Q
  /\ (speed (ui (run evs (mount speechRecognition))) <= slider_max)%Q.
Proof.
  intros Hall. apply (run_speed evs (mount speechRecognition) Hall).
  apply in_slider_initial.
Qed.

Lemma speed_within_slider_bounds_witness :
  let evs := [Receive 0 (ConfigReply (Response 200 (inr narrow_config)));
              ChangeSpeed 30] in
  Forall config_speed_ok evs
  /\ (slider_min <= speed (ui (run evs (mount false))))%Q
  /\ (speed (ui (run evs (mount false))) <= slider_max)%Q.
Proof.
  intros evs.
  assert (Hall : Forall config_speed_ok evs).
  { repeat constructor; unfold Qle; cbn; lia. }
  split; [exact Hall | exact (speed_within_slider_bounds false evs Hall)].
Defined.

(** C7 as stated fails: with a configuration whose bounds are 1 and 1.5 loaded,
    the slider still goes up to 2. *)
Lemma speed_exceeds_config_bounds :
  let w := run [Receive 0 (ConfigReply (Response 200 (inr narrow_config)));
                ChangeSpeed 30] (mount false) in
  voices (ui w) = cfg_voices narrow_config
  /\ voice (ui w) = "Fritz-PlayAI"
  /\ speed_max narrow_config = (3 # 2)%Q
  /\ Qeq (speed (ui w)) (2 # 1)%Q
  /\ ~ ((speed_min narrow_config <= speed (ui w))%Q
        /\ (speed (ui w) <= speed_max narrow_config)%Q).
Proof.
  intros w. split; [reflexivity |]. split; [reflexivity |].
  split; [reflexivity |]. split; [reflexivity |].
  intros [_ Hmax]. vm_compute in Hmax. by apply Hmax.
Qed.

(** * Further properties of the page *)

(** ** The shapes of a step *)

Lemma step_shape (e : Event) (w : World) :
  (exists a : Action, from_popup a /\ step e w = on_ui (act a) w)
  \/ step e w = sendChat w
  \/ (exists sessionId : Z, step e w = loadSession sessionId w)
  \/ (exists sessionId : Z, step e w = deleteSession sessionId w)
  \/ (exists n r, e = Receive n r /\ step e w = deliver n r w).
Proof.
  assert (Hidle : forall w0 : World, w0 = on_ui (act Idle) w0) by (by intros []).
  destruct e; cbn [step].
  - left. destruct (isListening _); [exists Idle | exists (Typed v)]; by split.
  - unfold handleKeyDown. destruct (isListening _); [left; exists Idle; by split |].
    destruct (_ && _); [by right; left | left; exists Idle; by split].
  - destruct (_ || _); [left; exists Idle; by split | eauto].
  - left. by exists Cleared.
  - left. by exists NewChat.
  - destruct (sessions _ !! _); [eauto 6 | left; exists Idle; by split].
  - destruct (sessions _ !! _); [eauto 6 | left; exists Idle; by split].
  - left. destruct (Nat.ltb _ _); [exists (Bookmarked i) | exists Idle]; by split.
  - left. destruct (Nat.ltb _ _); [eexists (Popup _) | exists Idle]; by split.
  - left. destruct (history _ !! _); [| exists Idle; by split].
    destruct (availableReactions !! k) as [emoji |] eqn:Hk; [| exists Idle; by split].
    exists (Reacted i emoji). split; [| done].
    cbn. by apply list_elem_of_lookup_2 in Hk.
  - left. destruct (decide _); [exists (VoiceChosen k) | exists Idle]; by split.
  - left. by exists (SpeedChosen notch).
  - left. by exists (TextOnlyChosen checked).
  - left. destruct (isSupported _); [| exists Idle; by split].
    destruct (isListening _); [exists MicStopped | exists MicStarted]; by split.
  - left. destruct (isSupported _); [exists (Heard t) | exists Idle]; by split.
  - left. by exists SpeechEnded.
  - eauto 8.
Qed.

(** A delivery changes nothing, or resumes the handler that was suspended on
    the fetch, which is no longer pending. *)
Lemma deliver_shape (n : nat) (r : Reply) (w : World) :
  deliver n r w = w
  \/ exists t : Task,
       tasks w !! n = Some t
       /\ resume t r (mkWorld (ui w) (delete n (tasks w)) (sent w))
          = Some (deliver n r w).
Proof.
  unfold deliver. destruct (tasks w !! n) as [t |]; [| by left].
  destruct (resume t r _) as [w' |] eqn:Hr; [| by left].
  right. by exists t.
Qed.

(** What holds when the page is mounted and is kept by every kind of step
    holds in every state that the page reaches. *)
Lemma reachable_invariant (P : World -> Prop) (b : bool) :
  P (mount b) ->
  (forall a w, from_popup a -> P w -> P (on_ui (act a) w)) ->
  (forall w, P w -> P (sendChat w)) ->
  (forall req t w, request_ok req -> is_sendChat_task t = false ->
                   P w -> P (fetch req t w)) ->
  (forall n r w, P w -> P (deliver n r w)) ->
  forall evs, P (run evs (mount b)).
Proof.
  intros Hmount Hact Hsend Hfetch Hdeliver evs.
  assert (Hrun : forall evs w, P w -> P (run evs w)).
  { clear evs. induction evs as [| e evs IH]; intros w Hw; [done |].
    cbn [run fold_left]. apply IH.
    destruct (step_shape e w)
      as [(a & Ha & ->) | [-> | [[sid ->] | [[sid ->] | (n & r & _ & ->)]]]]; auto.
    - by apply Hfetch.
    - by apply Hfetch. }
  apply Hrun, Hmount.
Qed.

(** ** The voice input hook *)

(** No network handler touches the cells of the hook. *)
Lemma resume_hook (t : Task) (r : Reply) (w w' : World) :
  resume t r w = Some w' ->
  isListening (ui w') = isListening (ui w)
  /\ isSupported (ui w') = isSupported (ui w).
Proof.
  destruct t, r; cbn [resume]; intros [= <-];
    unfold sendChat_resume, sendChat_voice, loadConfig_resume, loadSessions_resume,
      deleteSession_finish, loadSession_resume, deleteSession_resume, sendChat_catch;
    by_cases_on_state.
Qed.

Lemma sendChat_hook (w : World) :
  isListening (ui (sendChat w)) = isListening (ui w)
  /\ isSupported (ui (sendChat w)) = isSupported (ui w).
Proof.
  unfold sendChat. destruct (negb _); [done |]. by destruct w as [[] ? ?].
Qed.

Lemma deliver_hook (n : nat) (r : Reply) (w : World) :
  isListening (ui (deliver n r w)) = isListening (ui w)
  /\ isSupported (ui (deliver n r w)) = isSupported (ui w).
Proof.
  destruct (deliver_shape n r w) as [-> | (t & _ & Hr)]; [done |].
  apply (resume_hook _ _ _ _ Hr).
Qed.

Lemma act_hook (a : Action) (st : State) :
  isSupported (act a st) = isSupported st
  /\ (isListening (act a st) = true ->
      isListening st = true \/ isSupported st = true).
Proof.
  destruct a; cbn [act]; unfold startListening, stopListening, onresult;
    try (by_cases_on_state; auto; fail).
  destruct st. cbn. destruct isSupported0, isListening0; cbn; auto.
Qed.

(** X1. Whether speech recognition exists is settled at the mount and never
    changes; and the page is listening only when it exists: in a browser
    without it, [isListening] is false in every state that the page reaches
    (so the textarea is never disabled). *)
Theorem listening_needs_recognition (speechRecognition : bool) (evs : list Event) :
  isSupported (ui (run evs (mount speechRecognition))) = speechRecognition
  /\ (isListening (ui (run evs (mount speechRecognition))) = true ->
      speechRecognition = true).
Proof.
  apply (reachable_invariant
           (fun w => isSupported (ui w) = speechRecognition
                     /\ (isListening (ui w) = true -> speechRecognition = true))).
  - by destruct speechRecognition.
  - intros a w _ [Hs Hl]. destruct (act_hook a (ui w)) as [Hs' Hl'].
    cbn [on_ui ui]. split; [congruence |].
    intros H. destruct (Hl' H); [auto | congruence].
  - intros w [Hs Hl]. destruct (sendChat_hook w) as [-> ->]. by split.
  - intros req t w _ _ H. exact H.
  - intros n r w [Hs Hl]. destruct (deliver_hook n r w) as [-> ->]. by split.
Qed.

Lemma listening_needs_recognition_witness :
  isListening (ui (run [ClickMic] (mount true))) = true
  /\ isSupported (ui (run [ClickMic] (mount true))) = true.
Proof.
  destruct (listening_needs_recognition true [ClickMic]) as [Hs _].
  split; [reflexivity | exact Hs].
Defined.

(** ** The typing indicator *)

Lemma act_loading (a : Action) (st : State) : loading (act a st) = loading st.
Proof.
  destruct a; cbn [act]; unfold startListening, stopListening, onresult;
    by_cases_on_state.
Qed.

(** [sendChat] returns at once or suspends at the chat fetch. *)
Lemma sendChat_tasks (w : World) :
  sendChat w = w
  \/ exists c t v s,
       tasks (sendChat w) = (tasks w ++ [ChatPending c t v s])%list.
Proof.
  unfold sendChat. destruct (negb _); [by left | right].
  by eexists _, _, _, _.
Qed.

(** The handlers other than [sendChat], resumed: [loading] is as it was, and
    the fetches pending are still pending. *)
Lemma resume_other (t : Task) (r : Reply) (w w' : World) :
  is_sendChat_task t = false ->
  resume t r w = Some w' ->
  loading (ui w') = loading (ui w)
  /\ exists extra : list Task, tasks w' = (tasks w ++ extra)%list.
Proof.
  destruct t, r; cbn [resume is_sendChat_task]; intros Ht [= <-]; try discriminate;
    unfold loadConfig_resume, loadSessions_resume, deleteSession_finish,
      loadSession_resume, deleteSession_resume, loadSessions_from;
    by_cases_on_state;
    (split; [reflexivity |]);
    first [ by exists []; rewrite app_nil_r | by eexists ].
Qed.

Lemma Exists_delete_other {A : Type} (P : A -> Prop) (l : list A) (n : nat) (t : A) :
  l !! n = Some t -> ~ P t -> Exists P l -> Exists P (delete n l).
Proof.
  intros Hn Hnot Hex. apply Exists_exists in Hex as (x & Hx & HP).
  apply list_elem_of_lookup in Hx as [j Hj].
  apply Exists_exists. exists x. split; [| done].
  apply list_elem_of_lookup.
  destruct (decide (j < n)) as [Hlt | Hge].
  - exists j. by rewrite list_lookup_delete_lt.
  - assert (j <> n) by (intros ->; rewrite Hn in Hj; by injection Hj as ->).
    exists (pred j). rewrite list_lookup_delete_ge by lia.
    by replace (S (pred j)) with j by lia.
Qed.

(** X2. The typing indicator is never stuck: in every state that the page
    reaches, [loading] is true only while a stage of [sendChat] (the chat
    fetch or the voice fetch) is pending. *)
Theorem loading_has_pending_request (speechRecognition : bool) (evs : list Event) :
  loading (ui (run evs (mount speechRecognition))) = true ->
  Exists (fun t => is_sendChat_task t = true)
         (tasks (run evs (mount speechRecognition))).
Proof.
  apply (reachable_invariant
           (fun w => loading (ui w) = true ->
                     Exists (fun t => is_sendChat_task t = true) (tasks w))).
  - by destruct speechRecognition.
  - intros a w _ Hw. cbn [on_ui ui tasks]. by rewrite act_loading.
  - intros w Hw. destruct (sendChat_tasks w) as [-> | (c & t & v & s & ->)];
      [done |].
    intros _. apply Exists_app. right. by constructor.
  - intros req t w _ _ Hw Hl. cbn [fetch tasks]. apply Exists_app. left. by apply Hw.
  - intros n r w Hw. destruct (deliver_shape n r w) as [-> | (t & Hn & Hr)]; [done |].
    set (w0 := mkWorld (ui w) (delete n (tasks w)) (sent w)) in Hr.
    destruct (is_sendChat_task t) eqn:Ht.
    + intros Hl. destruct t, r; cbn in Ht, Hr; try discriminate;
        injection Hr as Hr; rewrite <- Hr in Hl |- *.
      * destruct (sendChat_resume_tasks currentSessionId0 textOnly0 voice0 speed0
                    r w0) as [[Hf _] | (l & -> & _)]; [congruence |].
        apply Exists_app. right. by constructor.
      * by rewrite sendChat_voice_loading in Hl.
    + destruct (resume_other t r w0 _ Ht Hr) as (Hl & extra & Hts).
      rewrite Hl, Hts. cbn [ui tasks w0]. intros Hload.
      apply Exists_app. left.
      apply (Exists_delete_other _ _ _ t Hn); [by rewrite Ht | by apply Hw].
Qed.

Lemma loading_has_pending_request_witness :
  let evs := [ChangeMessage "hi"; ClickSend] in
  loading (ui (run evs (mount false))) = true
  /\ Exists (fun t => is_sendChat_task t = true) (tasks (run evs (mount false))).
Proof.
  intros evs.
  assert (Hl : loading (ui (run evs (mount false))) = true) by reflexivity.
  split; [exact Hl | exact (loading_has_pending_request false evs Hl)].
Defined.

(** ** What the page sends *)

(** A handler that is resumed sends at most a fetch of the session list and a
    voice request. *)
Lemma resume_sent (t : Task) (r : Reply) (w w' : World) :
  resume t r w = Some w' ->
  exists extra : list Request,
    sent w' = (sent w ++ extra)%list /\ Forall request_ok extra.
Proof.
  destruct t, r; cbn [resume]; intros [= <-];
    unfold sendChat_resume, sendChat_voice, loadConfig_resume, loadSessions_resume,
      deleteSession_finish, loadSession_resume, deleteSession_resume, sendChat_catch,
      loadSessions, loadSessions_from;
    by_cases_on_state;
    first [ by exists []; rewrite app_nil_r
          | eexists [_]; split; [done | by repeat constructor]
          | eexists [_; _]; split; [by rewrite <- app_assoc | by repeat constructor] ].
Qed.

(** X3. Every request that the page has sent, in every state that it reaches,
    is well formed in this sense: a chat request carries a message that is not
    empty and the persona "iroha", and a deletion is a permanent one. *)
Theorem sent_requests_ok (speechRecognition : bool) (evs : list Event) :
  Forall request_ok (sent (run evs (mount speechRecognition))).
Proof.
  apply (reachable_invariant (fun w => Forall request_ok (sent w))).
  - by repeat constructor.
  - intros a w _ Hw. exact Hw.
  - intros w Hw. unfold sendChat.
    destruct (JsString.truthy _) eqn:Ht; [| done]. cbn [negb fetch on_ui sent].
    apply Forall_app. split; [done |]. repeat constructor.
    cbn. by apply truthy_trim.
  - intros req t w Hreq _ Hw. cbn [fetch sent]. apply Forall_app.
    split; [done | by repeat constructor].
  - intros n r w Hw. destruct (deliver_shape n r w) as [-> | (t & _ & Hr)]; [done |].
    destruct (resume_sent _ _ _ _ Hr) as (extra & -> & Hextra).
    apply Forall_app. by split.
Qed.

(** ** Reactions *)

Lemma reactions_ok_fresh (m : ChatMsg) : reactions m = None -> reactions_ok m.
Proof.
  intros Hm. unfold reactions_ok. rewrite Hm. cbn. split; [constructor |].
  intros emoji Hin. by apply elem_of_nil in Hin.
Qed.

Lemma elem_of_filter_ne (emoji x : string) (l : list string) :
  x ∈ List.filter (fun r => negb (String.eqb r emoji)) l <-> x ∈ l /\ x <> emoji.
Proof.
  rewrite !list_elem_of_In, filter_In, negb_true_iff, String.eqb_neq. done.
Qed.

Lemma NoDup_filter_ne (emoji : string) (l : list string) :
  NoDup l -> NoDup (List.filter (fun r => negb (String.eqb r emoji)) l).
Proof.
  induction 1 as [| x l Hx _ IH]; cbn; [constructor |].
  destruct (negb _); [| done]. constructor; [| done].
  rewrite elem_of_filter_ne. by intros [? _].
Qed.

Lemma react_ok (emoji : string) (m : ChatMsg) :
  emoji ∈ availableReactions -> reactions_ok m -> reactions_ok (react emoji m).
Proof.
  intros Hav [Hnd Hsub]. unfold reactions_ok, react.
  cbn [reactions with_reactions default].
  destruct (includes emoji (default [] (reactions m))) eqn:Hinc.
  - split; [by apply NoDup_filter_ne |].
    intros x Hx. apply elem_of_filter_ne in Hx as [Hx _]. by apply Hsub.
  - assert (Hnot : emoji ∉ default [] (reactions m)).
    { intros Hin. apply includes_elem_of in Hin. congruence. }
    split.
    + apply NoDup_app. split; [done |]. split; [| apply NoDup_singleton].
      intros x Hx Hx'. apply list_elem_of_singleton in Hx'. by subst.
    + intros x Hx. apply elem_of_app in Hx as [Hx | Hx]; [by apply Hsub |].
      apply list_elem_of_singleton in Hx. by subst.
Qed.

Lemma stored_messages_ok (l : list StoredMsg) :
  Forall reactions_ok
    (map (fun m => mkChatMsg (m_role m) (m_content m) (Some (m_id m)) None None) l).
Proof.
  induction l as [| m l IH]; cbn; constructor; [by apply reactions_ok_fresh | done].
Qed.

Lemma act_reactions (a : Action) (st : State) :
  from_popup a ->
  Forall reactions_ok (history st) -> Forall reactions_ok (history (act a st)).
Proof.
  intros Ha Hst.
  destruct a; cbn [act];
    try (replace (history _) with (history st)
           by (unfold startListening, stopListening, onresult; by_cases_on_state);
         exact Hst).
  - by destruct st.
  - by destruct st.
  - rewrite history_toggleBookmark. apply Forall_lookup. intros j m.
    rewrite list_lookup_imap. destruct (history st !! j) as [m0 |] eqn:Hj; [| done].
    cbn. intros [= <-]. pose proof (Forall_lookup_1 _ _ _ _ Hst Hj) as Hm0.
    by destruct (Nat.eqb j i).
  - rewrite history_addReaction. apply Forall_lookup. intros j m.
    rewrite list_lookup_imap. destruct (history st !! j) as [m0 |] eqn:Hj; [| done].
    cbn. intros [= <-]. pose proof (Forall_lookup_1 _ _ _ _ Hst Hj) as Hm0.
    destruct (Nat.eqb j i); [by apply react_ok | done].
Qed.

Lemma resume_reactions (t : Task) (r : Reply) (w w' : World) :
  resume t r w = Some w' ->
  Forall reactions_ok (history (ui w)) -> Forall reactions_ok (history (ui w')).
Proof.
  destruct t, r; cbn [resume]; intros [= <-];
    unfold sendChat_resume, sendChat_voice, loadConfig_resume, loadSessions_resume,
      deleteSession_finish, loadSession_resume, deleteSession_resume, sendChat_catch,
      loadSessions, loadSessions_from;
    by_cases_on_state;
    first [ apply stored_messages_ok
          | apply Forall_app; split; [done |];
            constructor; [by apply reactions_ok_fresh | done] ].
Qed.

(** X4. In every state that the page reaches, the reactions of every message
    hold no emoji twice, and only emojis of the popup. *)
Theorem reactions_without_duplicates (speechRecognition : bool) (evs : list Event) :
  Forall reactions_ok (history (ui (run evs (mount speechRecognition)))).
Proof.
  apply (reachable_invariant (fun w => Forall reactions_ok (history (ui w)))).
  - by destruct speechRecognition.
  - intros a w Ha Hw. cbn [on_ui ui]. by apply act_reactions.
  - intros w Hw. unfold sendChat. destruct (negb _); [done |].
    destruct w as [[] ? ?]. cbn in *. apply Forall_app. split; [done |].
    constructor; [by apply reactions_ok_fresh | done].
  - intros req t w _ _ Hw. exact Hw.
  - intros n r w Hw. destruct (deliver_shape n r w) as [-> | (t & _ & Hr)]; [done |].
    by apply (resume_reactions _ _ _ _ Hr).
Qed.

Lemma reactions_without_duplicates_witness :
  let evs := [ChangeMessage "hi"; ClickSend; ClickReaction 0 1; ClickReaction 0 1;
              ClickReaction 0 1] in
  history (ui (run evs (mount false)))
  = [mkChatMsg user "hi" None (Some ["👍"]) None]
  /\ Forall reactions_ok (history (ui (run evs (mount false)))).
Proof.
  intros evs. split; [reflexivity | exact (reactions_without_duplicates false evs)].
Defined.

(** ** Sending twice *)

Lemma sendChat_clears_message (w : World) :
  JsString.trim (message (ui w)) <> "" ->
  message (ui (sendChat w)) = "" /\ loading (ui (sendChat w)) = true.
Proof.
  intros Hne. destruct (sendChat_started w Hne) as (st1 & -> & _ & _ & Hm & Hl & _).
  by split.
Qed.

Lemma sendChat_twice (w : World) : sendChat (sendChat w) = sendChat w.
Proof.
  destruct (JsString.truthy (JsString.trim (message (ui w)))) eqn:Ht.
  - apply truthy_trim in Ht. destruct (sendChat_clears_message w Ht) as [Hm _].
    unfold sendChat at 1. by rewrite Hm.
  - unfold sendChat at 2. rewrite Ht. cbn [negb]. unfold sendChat. by rewrite Ht.
Qed.

(** X5. Pressing Enter twice, or clicking the send button twice, sends the
    message once: [sendChat] empties the input (and the button is disabled
    while [loading]), so the second event finds nothing to send and changes
    nothing. *)
Theorem send_twice_sends_once (w : World) :
  step (KeyDown "Enter" false) (step (KeyDown "Enter" false) w)
  = step (KeyDown "Enter" false) w
  /\ step ClickSend (step ClickSend w) = step ClickSend w.
Proof.
  split.
  - cbn [step]. unfold handleKeyDown. cbn [String.eqb Ascii.eqb Bool.eqb negb andb].
    destruct (isListening (ui w)) eqn:Hl; [by rewrite Hl |].
    destruct (sendChat_hook w) as [-> _]. rewrite Hl. apply sendChat_twice.
  - cbn [step].
    destruct (loading (ui w) || _) eqn:Hg; [by rewrite Hg |].
    apply orb_false_iff in Hg as [_ Ht]. apply negb_false_iff, truthy_trim in Ht.
    destruct (sendChat_clears_message w Ht) as [_ ->]. done.
Qed.

(** ** Text only, and voice *)

(** With "text only" checked at the call, the chat stage is the last one. *)
Lemma sendChat_resume_text_only (c : option Z) (v : string) (s : Q)
    (r : Fetched ChatData) (w : World) :
  let w2 := sendChat_resume c true v s r w in
  loading (ui w2) = false
  /\ audioUrl (ui w2) = audioUrl (ui w)
  /\ (tasks w2 = tasks w \/ tasks w2 = (tasks w ++ [SessionsPending None])%list)
  /\ (sent w2 = sent w \/ sent w2 = (sent w ++ [GetSessions])%list).
Proof.
  unfold sendChat_resume, sendChat_catch, loadSessions, loadSessions_from.
  by_cases_on_state; repeat split; auto.
Qed.

(** The cells that the synchronous part of [sendChat] leaves alone. *)
Lemma sendChat_cells (w : World) :
  audioUrl (ui (sendChat w)) = audioUrl (ui w)
  /\ currentSessionId (ui (sendChat w)) = currentSessionId (ui w)
  /\ sessions (ui (sendChat w)) = sessions (ui w)
  /\ textOnly (ui (sendChat w)) = textOnly (ui w)
  /\ voice (ui (sendChat w)) = voice (ui w).
Proof.
  unfold sendChat. destruct (negb _); [done |]. by destruct w as [[] ? ?].
Qed.

(** A run of [sendChat] on a message that is not blank, with the state that
    the synchronous part leaves written out. *)
Lemma sendChat_run_eq (chat : Fetched ChatData) (voice_r : Fetched string)
    (w : World) :
  JsString.trim (message (ui w)) <> "" ->
  let w2 := sendChat_resume (currentSessionId (ui w)) (textOnly (ui w))
              (voice (ui w)) (speed (ui w)) chat
              (mkWorld (ui (sendChat w)) (tasks w)
                 (sent w ++ [PostChat (JsString.trim (message (ui w)))
                               (currentSessionId (ui w)) "iroha"])) in
  sendChat_run chat voice_r w
  = if Nat.ltb (length (tasks w)) (length (tasks w2))
       && is_VoicePending (last (tasks w2))
    then deliver (length (tasks w2) - 1) (VoiceReply voice_r) w2
    else w2.
Proof.
  intros Hne. destruct (sendChat_started w Hne) as (st1 & Hsend & _).
  unfold sendChat_run. rewrite Hsend.
  replace (length (tasks w)) with (length (tasks (mkWorld st1 (tasks w) (sent w))))
    by reflexivity.
  rewrite deliver_fetch. cbn [resume default from_option id ui tasks sent].
  cbn [fetch tasks ui]. rewrite length_app. cbn [length].
  replace (Nat.ltb (length (tasks w)) (length (tasks w) + 1)) with true
    by (symmetry; apply Nat.ltb_lt; lia).
  reflexivity.
Qed.

(** X6. With "text only" checked when [sendChat] is called on a message that is
    not blank, the run makes no voice request and leaves [audioUrl] as it was,
    whatever the chat request is answered; it sends the chat request and at
    most a fetch of the session list, and ends with [loading] false. *)
Theorem sendChat_text_only (chat : Fetched ChatData) (voice_r : Fetched string)
    (w : World) :
  ~ JsString.Blank (message (ui w)) ->
  textOnly (ui w) = true ->
  let w' := sendChat_run chat voice_r w in
  audioUrl (ui w') = audioUrl (ui w)
  /\ loading (ui w') = false
  /\ exists extra : list Request,
       sent w' = (sent w ++ extra)%list
       /\ Forall (fun q => is_PostVoice q = false) extra.
Proof.
  intros Hnb Htext w'. pose proof (not_Blank_trim _ Hnb) as Hne.
  subst w'. rewrite (sendChat_run_eq chat voice_r w Hne). cbn zeta.
  rewrite Htext.
  set (w1 := mkWorld (ui (sendChat w)) (tasks w)
               (sent w ++ [PostChat (JsString.trim (message (ui w)))
                             (currentSessionId (ui w)) "iroha"])).
  destruct (sendChat_resume_text_only (currentSessionId (ui w)) (voice (ui w))
              (speed (ui w)) chat w1) as (Hl & Ha & Ht & Hs).
  cbn [tasks sent ui w1] in Ha, Ht, Hs.
  destruct (sendChat_cells w) as (Hau & _).
  match goal with
  | |- context [if ?c then _ else _] => replace c with false
  end.
  2:{ destruct Ht as [-> | ->].
      - by rewrite Nat.ltb_irrefl.
      - rewrite last_snoc. cbn [is_VoicePending]. by rewrite andb_false_r. }
  split; [congruence | split; [done |]].
  destruct Hs as [-> | ->].
  - eexists [_]. split; [reflexivity | by repeat constructor].
  - eexists [_; _]. split; [by rewrite <- app_assoc | by repeat constructor].
Qed.

Lemma sendChat_text_only_witness :
  let w := on_ui (setTextOnly true) (on_ui (setMessage "hi") (mount false)) in
  let w' := sendChat_run (Response 200 (inr (mkChatData "hello" None)))
                         (Response 200 (inr "blob:audio")) w in
  ~ JsString.Blank (message (ui w))
  /\ textOnly (ui w) = true
  /\ audioUrl (ui w') = None
  /\ status (ui w') = "Response time: ?s"
  /\ loading (ui w') = false.
Proof.
  intros w w'.
  assert (Hnb : ~ JsString.Blank (message (ui w))).
  { intros Hb. apply trim_Blank in Hb. vm_compute in Hb. discriminate Hb. }
  destruct (sendChat_text_only (Response 200 (inr (mkChatData "hello" None)))
              (Response 200 (inr "blob:audio")) w Hnb eq_refl) as (Ha & Hl & _).
  split; [exact Hnb |]. split; [reflexivity |]. split; [exact Ha |].
  split; [reflexivity | exact Hl].
Defined.

(** The voice stage on a well-read answer. *)
Lemma sendChat_voice_ok (code : nat) (url : string) (w : World) :
  ok code = true ->
  let w' := sendChat_voice (Response code (inr url)) w in
  audioUrl (ui w') = Some url /\ status (ui w') = "Ready"
  /\ loading (ui w') = false /\ sent w' = sent w /\ tasks w' = tasks w.
Proof. intros Hok. cbn. rewrite Hok. by destruct w as [[] ? ?]. Qed.

(** X7. With "text only" unchecked, when both the chat request and the voice
    request are answered well, the run of [sendChat] ends with [audioUrl] the
    URL made for the audio, the status "Ready" and [loading] false; the voice
    request is the last one sent, for the response text, with the voice and
    the speed that were selected when [sendChat] was called. *)
Theorem sendChat_voice_played (code code' : nat) (data : ChatData) (url : string)
    (w : World) :
  ~ JsString.Blank (message (ui w)) ->
  textOnly (ui w) = false ->
  ok code = true ->
  ok code' = true ->
  let w' := sendChat_run (Response code (inr data)) (Response code' (inr url)) w in
  audioUrl (ui w') = Some url
  /\ status (ui w') = "Ready"
  /\ loading (ui w') = false
  /\ last (sent w') = Some (PostVoice (response data) (voice (ui w)) (speed (ui w))).
Proof.
  intros Hnb Htext Hok Hok' w'. pose proof (not_Blank_trim _ Hnb) as Hne.
  subst w'. rewrite (sendChat_run_eq _ _ w Hne). cbn zeta. rewrite Htext.
  set (w1 := mkWorld (ui (sendChat w)) (tasks w)
               (sent w ++ [PostChat (JsString.trim (message (ui w)))
                             (currentSessionId (ui w)) "iroha"])).
  destruct (sendChat_resume_voice_pending (currentSessionId (ui w)) (voice (ui w))
              (speed (ui w)) code data w1 Hok) as (l & Ht & Hlen).
  destruct (sendChat_resume_ok (currentSessionId (ui w)) false (voice (ui w))
              (speed (ui w)) code data w1 Hok) as (_ & _ & Hsent).
  set (w2 := sendChat_resume _ _ _ _ _ w1) in *.
  cbn [tasks w1] in Hlen.
  rewrite Ht, last_snoc, length_app. cbn [is_VoicePending length].
  replace (Nat.ltb (length (tasks w)) (length l + 1)) with true
    by (symmetry; apply Nat.ltb_lt; lia).
  cbn [andb]. replace (length l + 1 - 1) with (length l) by lia.
  unfold deliver. rewrite Ht, list_lookup_middle by done.
  cbn [resume default from_option id].
  destruct (sendChat_voice_ok code' url
              (mkWorld (ui w2) (delete (length l) (l ++ [VoicePending])%list) (sent w2))
              Hok') as (Ha & Hs & Hl & Hse & _).
  split; [exact Ha | split; [exact Hs | split; [exact Hl |]]].
  rewrite Hse. cbn [sent]. rewrite Hsent, !app_assoc. apply last_snoc.
Qed.

Lemma sendChat_voice_played_witness :
  let w := on_ui (setMessage "hi") (mount false) in
  let w' := sendChat_run (Response 200 (inr (mkChatData "hello" None)))
                         (Response 200 (inr "blob:audio")) w in
  ~ JsString.Blank (message (ui w))
  /\ textOnly (ui w) = false
  /\ audioUrl (ui w') = Some "blob:audio"
  /\ last (sent w') = Some (PostVoice "hello" "Arista-PlayAI" (105 # 100)%Q).
Proof.
  intros w w'.
  assert (Hnb : ~ JsString.Blank (message (ui w))).
  { intros Hb. apply trim_Blank in Hb. vm_compute in Hb. discriminate Hb. }
  destruct (sendChat_voice_played 200 200 (mkChatData "hello" None) "blob:audio" w
              Hnb eq_refl eq_refl eq_refl) as (Ha & _ & _ & Hlast).
  split; [exact Hnb |]. split; [reflexivity |]. split; [exact Ha | exact Hlast].
Defined.

(** ** A conversation that has a session *)

Lemma new_session_id_current (data : ChatData) (c : Z) :
  c <> 0%Z -> new_session_id data (Some c) = None.
Proof.
  intros Hc. unfold new_session_id. destruct (metadata data ≫= session_id); [| done].
  change (default 0%Z (Some c)) with c. unfold JsString.truthy_num at 2.
  apply Z.eqb_neq in Hc as ->. cbn [negb]. by rewrite andb_false_r.
Qed.

Lemma sendChat_resume_current (c : Z) (t : bool) (v : string) (s : Q)
    (r : Fetched ChatData) (w : World) :
  c <> 0%Z ->
  let w2 := sendChat_resume (Some c) t v s r w in
  currentSessionId (ui w2) = currentSessionId (ui w)
  /\ (sent w2 = sent w \/ exists x, sent w2 = (sent w ++ [PostVoice x v s])%list).
Proof.
  intros Hc. destruct r as [e | code [e | data]]; cbn [sendChat_resume];
    try rewrite (new_session_id_current _ _ Hc);
    unfold sendChat_catch; by_cases_on_state; split; eauto.
Qed.

(** X8. When a session is current (its id is not 0) and [sendChat] is called on
    a message that is not blank, the chat request carries that id, the run
    leaves [currentSessionId] as it is whatever the answers are, and the
    session list is not fetched again. *)
Theorem sendChat_keeps_session (chat : Fetched ChatData) (voice_r : Fetched string)
    (c : Z) (w : World) :
  ~ JsString.Blank (message (ui w)) ->
  currentSessionId (ui w) = Some c ->
  c <> 0%Z ->
  let w' := sendChat_run chat voice_r w in
  currentSessionId (ui w') = Some c
  /\ exists extra : list Request,
       sent w'
       = (sent w ++ PostChat (JsString.trim (message (ui w))) (Some c) "iroha"
                    :: extra)%list
       /\ GetSessions ∉ extra.
Proof.
  intros Hnb Hcur Hc w'. pose proof (not_Blank_trim _ Hnb) as Hne.
  assert (Hw2 : exists w2,
    w2 = sendChat_resume (Some c) (textOnly (ui w)) (voice (ui w)) (speed (ui w)) chat
           (mkWorld (ui (sendChat w)) (tasks w)
              (sent w ++ [PostChat (JsString.trim (message (ui w))) (Some c) "iroha"]))
    /\ currentSessionId (ui w') = currentSessionId (ui w2)
    /\ sent w' = sent w2).
  { eexists. split; [reflexivity |]. subst w'.
    rewrite (sendChat_run_eq chat voice_r w Hne). cbn zeta. rewrite Hcur.
    destruct (_ && _); [| done]. split; apply deliver_voice_frame. }
  destruct Hw2 as (w2 & Hw2 & -> & ->).
  destruct (sendChat_resume_current c (textOnly (ui w)) (voice (ui w)) (speed (ui w))
              chat
              (mkWorld (ui (sendChat w)) (tasks w)
                 (sent w ++ [PostChat (JsString.trim (message (ui w))) (Some c)
                               "iroha"])) Hc) as (Hcur2 & Hsent2).
  rewrite <- Hw2 in Hcur2, Hsent2. cbn [ui sent] in Hcur2, Hsent2.
  destruct (sendChat_cells w) as (_ & Hcs & _).
  split; [congruence |].
  destruct Hsent2 as [-> | [x ->]].
  - exists []. split; [done | apply not_elem_of_nil].
  - exists [PostVoice x (voice (ui w)) (speed (ui w))].
    split; [by rewrite <- app_assoc |].
    intros Hin. apply list_elem_of_singleton in Hin. discriminate.
Qed.

Lemma sendChat_keeps_session_witness :
  let w := on_ui (setMessage "more") page_with_session7 in
  let data := mkChatData "sure" (Some (mkMetadata (Some 9%Z) None)) in
  let w' := sendChat_run (Response 200 (inr data)) (Response 200 (inr "blob:a")) w in
  ~ JsString.Blank (message (ui w))
  /\ currentSessionId (ui w) = Some 7%Z
  /\ currentSessionId (ui w') = Some 7%Z.
Proof.
  intros w data w'.
  assert (Hnb : ~ JsString.Blank (message (ui w))).
  { intros Hb. apply trim_Blank in Hb. vm_compute in Hb. discriminate Hb. }
  assert (Hc : 7%Z <> 0%Z) by lia.
  destruct (sendChat_keeps_session (Response 200 (inr data))
              (Response 200 (inr "blob:a")) 7 w Hnb eq_refl Hc) as [Hcur _].
  split; [exact Hnb |]. split; [reflexivity | exact Hcur].
Defined.

(** ** Deleting another session *)

Lemma same_session_false (c : option Z) (sessionId : Z) :
  c <> Some sessionId -> same_session c sessionId = false.
Proof.
  destruct c as [c |]; cbn; [| done]. intros Hne.
  apply Z.eqb_neq. congruence.
Qed.

(** X9. Deleting a session that is not the current one never touches the
    conversation: whatever the two fetches are answered, the history, the
    current session, the status, the input and the audio are as before. *)
Theorem deleteSession_other_session (sessionId : Z) (del : Fetched unit)
    (list_r : Fetched (option (list Session))) (w : World) :
  currentSessionId (ui w) <> Some sessionId ->
  let w' := deleteSession_run sessionId del list_r w in
  history (ui w') = history (ui w)
  /\ currentSessionId (ui w') = currentSessionId (ui w)
  /\ status (ui w') = status (ui w)
  /\ message (ui w') = message (ui w)
  /\ audioUrl (ui w') = audioUrl (ui w).
Proof.
  intros Hne w'. subst w'. destruct del as [e | code body].
  - by rewrite deleteSession_run_rejected.
  - rewrite deleteSession_run_resolved. unfold deleteSession_finish.
    rewrite (same_session_false _ _ Hne).
    unfold loadSessions_resume. by_cases_on_state.
Qed.

Lemma deleteSession_other_session_witness :
  let w := page_with_session7 in
  let w' := deleteSession_run 8 (Response 200 (inr ())) (store_list [session7]) w in
  currentSessionId (ui w) <> Some 8%Z
  /\ history (ui w') = history (ui w)
  /\ currentSessionId (ui w') = Some 7%Z.
Proof.
  intros w w'.
  assert (Hne : currentSessionId (ui w) <> Some 8%Z) by (vm_compute; discriminate).
  destruct (deleteSession_other_session 8 (Response 200 (inr ()))
              (store_list [session7]) w Hne) as (Hh & Hc & _).
  split; [exact Hne |]. split; [exact Hh |]. exact (eq_trans Hc eq_refl).
Defined.

(** ** The loaders *)

(** X10. A failure of [loadConfig], of [loadSessions] or of [loadSession] (the
    fetch throws, the response is not ok, or reading the body throws) is
    silent: it is not shown in the status, and no cell changes; nothing is
    sent, and the handler is no longer pending. *)
Theorem loader_failure_silent (w : World) (n : nat) (t : Task) (r : Reply) :
  tasks w !! n = Some t ->
  loader_failure t r = true ->
  ui (deliver n r w) = ui w
  /\ sent (deliver n r w) = sent w
  /\ tasks (deliver n r w) = delete n (tasks w).
Proof.
  intros Hn Hfail. unfold deliver. rewrite Hn.
  destruct t as [| | | [k |] | |], r as [r | r | r | r | r | r];
    cbn in Hfail; try discriminate;
    destruct r as [e | code [e | a]]; cbn in Hfail; try discriminate;
    cbn; try done;
    apply negb_true_iff in Hfail; by rewrite Hfail.
Qed.

Lemma loader_failure_silent_witness :
  let w := step (ClickSession 0) page_with_session7 in
  let r := SessionReply (Response 404 (inl (Error "Unexpected token"))) in
  tasks w !! 1 = Some (SessionPending 7)
  /\ loader_failure (SessionPending 7) r = true
  /\ ui (deliver 1 r w) = ui w
  /\ status (ui (deliver 1 r w)) = "Loaded: Homework".
Proof.
  intros w r.
  assert (Hn : tasks w !! 1 = Some (SessionPending 7)) by reflexivity.
  assert (Hf : loader_failure (SessionPending 7) r = true) by reflexivity.
  destruct (loader_failure_silent w 1 _ r Hn Hf) as (Hui & _).
  split; [exact Hn |]. split; [exact Hf |]. split; [exact Hui |].
  rewrite Hui. reflexivity.
Defined.

(** X11. Opening a saved session from the sidebar, when its fetch is answered
    well, replaces the conversation by the stored messages, in their order and
    with their ids; reactions and bookmarks made on the page before are not
    kept.  The session becomes the current one and the status names its
    title. *)
Theorem open_session (idx : nat) (s : Session) (code : nat) (data : SessionData)
    (w : World) :
  sessions (ui w) !! idx = Some s ->
  ok code = true ->
  let w' := run [ClickSession idx;
                 Receive (length (tasks w)) (SessionReply (Response code (inr data)))]
                w in
  history (ui w') = map of_stored (sd_messages data)
  /\ Forall (fun m => reactions m = None /\ bookmarked m = None) (history (ui w'))
  /\ currentSessionId (ui w') = Some (s_id s)
  /\ status (ui w') = "Loaded: " ++ sd_title data
  /\ sent w' = (sent w ++ [GetSession (s_id s)])%list
  /\ tasks w' = tasks w.
Proof.
  intros Hs Hok w'. subst w'. cbn [run fold_left step]. rewrite Hs.
  unfold loadSession. rewrite deliver_fetch.
  cbn [resume default from_option id loadSession_resume]. rewrite Hok.
  destruct w as [[] ts rs]. cbn. repeat split.
  induction (sd_messages data) as [| m l IH]; cbn; constructor; done.
Qed.

Lemma open_session_witness :
  let w := run [Receive 1 (SessionsReply (store_list [session7]))] (mount false) in
  let data := mkSessionData [mkStoredMsg user "hi" 1; mkStoredMsg assistant "hello" 2]
                            "Homework" in
  let w' := run [ClickSession 0;
                 Receive (length (tasks w)) (SessionReply (Response 200 (inr data)))]
                w in
  sessions (ui w) !! 0 = Some session7
  /\ ok 200 = true
  /\ history (ui w') = [mkChatMsg user "hi" (Some 1%Z) None None;
                        mkChatMsg assistant "hello" (Some 2%Z) None None]
  /\ currentSessionId (ui w') = Some 7%Z.
Proof.
  intros w data w'.
  destruct (open_session 0 session7 200 data w eq_refl eq_refl) as (Hh & _ & Hc & _).
  split; [reflexivity |]. split; [reflexivity |]. split; [exact Hh | exact Hc].
Defined.

(** ** A deletion that ends late *)

(** X12. Whether the conversation is reset after a deletion is decided by the
    session that was current when the cross was clicked, not by the one that
    is current when the deletion ends: if the deleted session was the current
    one at the click and the DELETE fetch gives a response, then, whatever the
    cells have become in the meantime and whatever the fetch of the list is
    answered, the end of [deleteSession] empties the history and sets
    [currentSessionId] to null. *)
Theorem deletion_resets_by_session_at_click (idx : nat) (s : Session) (code : nat)
    (body : Thrown + unit) (meanwhile : State -> State)
    (list_r : Fetched (option (list Session))) (w : World) :
  sessions (ui w) !! idx = Some s ->
  currentSessionId (ui w) = Some (s_id s) ->
  let w1 := run [ClickDelete idx;
                 Receive (length (tasks w)) (DeleteReply (Response code body))] w in
  let w2 := deliver (length (tasks w)) (SessionsReply list_r) (on_ui meanwhile w1) in
  history (ui w2) = []
  /\ currentSessionId (ui w2) = None
  /\ status (ui w2) = "New chat started".
Proof.
  intros Hs Hcur w1 w2. subst w2 w1. cbn [run fold_left step]. rewrite Hs.
  unfold deleteSession. rewrite deliver_fetch.
  cbn [resume default from_option id deleteSession_resume]. rewrite Hcur.
  unfold loadSessions_from, on_ui. cbn [fetch ui tasks sent].
  unfold deliver. cbn [tasks]. rewrite list_lookup_middle by done.
  cbn [resume default from_option id ui sent]. unfold deleteSession_finish, same_session.
  rewrite Z.eqb_refl. unfold loadSessions_resume.
  destruct list_r as [e | c [e | d]]; cbn; try destruct (ok c); cbn;
    by destruct (meanwhile (ui w)).
Qed.

Lemma deletion_resets_by_session_at_click_witness :
  let w := page_with_session7 in
  let w1 := run [ClickDelete 0; Receive 1 (DeleteReply (Response 200 (inr ())))] w in
  let w2 := deliver 1 (SessionsReply (store_list []))
              (on_ui (setHistory (fun _ => [msg user "new"])) w1) in
  sessions (ui w) !! 0 = Some session7
  /\ currentSessionId (ui w) = Some 7%Z
  /\ history (ui w2) = [].
Proof.
  intros w w1 w2.
  destruct (deletion_resets_by_session_at_click 0 session7 200 (inr ())
              (setHistory (fun _ => [msg user "new"])) (store_list []) w
              eq_refl eq_refl) as (Hh & _).
  split; [reflexivity |]. split; [reflexivity | exact Hh].
Defined.

(** ** Dictation *)

Lemma not_Blank_nonempty (t : string) : ~ JsString.Blank t -> String.eqb t "" = false.
Proof.
  intros Hnb. apply String.eqb_neq. intros ->. apply Hnb. constructor.
Qed.

(** X13. Dictating a message: with speech recognition there and the page not
    listening, a click on the microphone followed by a result [t] that is not
    blank puts [t] in the input.  While the page is listening the Enter key
    does nothing; once the recognition has ended, Enter sends the trimmed
    [t], and the input and the transcript are empty again. *)
Theorem dictation_then_enter (t : string) (w : World) :
  isSupported (ui w) = true ->
  isListening (ui w) = false ->
  ~ JsString.Blank t ->
  let heard := run [ClickMic; SpeechResult t] w in
  let w' := run [SpeechEnd; KeyDown "Enter" false] heard in
  message (ui heard) = t
  /\ isListening (ui heard) = true
  /\ step (KeyDown "Enter" false) heard = heard
  /\ sent w'
     = (sent w ++ [PostChat (JsString.trim t) (currentSessionId (ui w)) "iroha"])%list
  /\ message (ui w') = ""
  /\ transcript (ui w') = "".
Proof.
  intros Hsup Hlis Hnb heard w'.
  pose proof (not_Blank_nonempty t Hnb) as Ht.
  pose proof (proj2 (truthy_trim t) (not_Blank_trim t Hnb)) as Htrim.
  assert (Htruthy : JsString.truthy t = true)
    by (unfold JsString.truthy; by rewrite Ht).
  destruct w as [st ts rs]. destruct st. cbn in Hsup, Hlis. subst.
  subst w' heard. cbn [run fold_left step ui isSupported isListening].
  unfold startListening, onresult, handleKeyDown, sendChat.
  change (String.eqb "Enter" "Enter") with true.
  cbn -[JsString.trim JsString.truthy String.eqb].
  rewrite Ht, Htruthy. cbn -[JsString.trim JsString.truthy String.eqb].
  rewrite Htrim. cbn -[JsString.trim JsString.truthy String.eqb].
  repeat split; by rewrite Ht.
Qed.

Lemma dictation_then_enter_witness :
  let w := mount true in
  let heard := run [ClickMic; SpeechResult "hello there"] w in
  let w' := run [SpeechEnd; KeyDown "Enter" false] heard in
  isSupported (ui w) = true
  /\ isListening (ui w) = false
  /\ ~ JsString.Blank "hello there"
  /\ message (ui heard) = "hello there"
  /\ sent w' = [GetConfig; GetSessions; PostChat "hello there" None "iroha"].
Proof.
  intros w heard w'.
  assert (Hnb : ~ JsString.Blank "hello there").
  { intros Hb. apply trim_Blank in Hb. vm_compute in Hb. discriminate Hb. }
  destruct (dictation_then_enter "hello there" w eq_refl eq_refl Hnb)
    as (Hm & _ & _ & Hs & _).
  split; [reflexivity |]. split; [reflexivity |]. split; [exact Hnb |].
  split; [exact Hm | exact Hs].
Defined.

(** ** Dark mode *)

(** Once the toggle has been clicked, the three are in one of two states. *)
Lemma toggled_theme (savedTheme : option string) (prefersDark : bool) (n : nat) :
  0 < n ->
  theme_after savedTheme prefersDark n = mkTheme true true (Some "dark")
  \/ theme_after savedTheme prefersDark n = mkTheme false false (Some "light").
Proof.
  destruct n as [| n]; [lia |]. intros _.
  unfold theme_after. rewrite Nat.iter_succ.
  generalize (Nat.iter n toggleDarkMode
                (theme_effect prefersDark (theme_first_render savedTheme))).
  intros [[] ? ?]; cbn; [by right | by left].
Qed.

(** X14. After the mount and any number of clicks on the toggle, the class
    [dark] is on the document exactly when [darkMode] is true; and once the
    toggle has been clicked, the theme saved in the storage names the mode
    that is shown. *)
Theorem dark_class_follows_darkMode (savedTheme : option string) (prefersDark : bool)
    (n : nat) :
  let t := theme_after savedTheme prefersDark n in
  html_dark t = darkMode t
  /\ (0 < n -> saved_theme t = Some (if darkMode t then "dark" else "light")).
Proof.
  cbn zeta. destruct n as [| n].
  - split; [| lia]. unfold theme_after, theme_effect. cbn [Nat.iter].
    by destruct (_ || _).
  - assert (Hn : 0 < S n) by lia.
    destruct (toggled_theme savedTheme prefersDark (S n) Hn) as [-> | ->];
      by split.
Qed.

Lemma dark_class_follows_darkMode_witness :
  let t := theme_after (Some "light") true 3 in
  0 < 3
  /\ darkMode t = true /\ html_dark t = true /\ saved_theme t = Some "dark".
Proof.
  intros t. assert (Hn : 0 < 3) by lia.
  destruct (dark_class_follows_darkMode (Some "light") true 3) as [Hc Hs].
  split; [exact Hn |]. split; [reflexivity |]. split; [exact Hc |].
  exact (Hs Hn).
Defined.

(** X15. The mode survives a reload: once the toggle has been clicked, opening
    the page again with the storage as it was left shows the same mode,
    whatever the preference of the system is then.  With nothing saved (or an
    empty item), the page follows the preference of the system. *)
Theorem theme_survives_reload (savedTheme : option string)
    (prefersDark prefersDark' : bool) (n : nat) :
  (0 < n ->
   darkMode (theme_after (saved_theme (theme_after savedTheme prefersDark n))
                         prefersDark' 0)
   = darkMode (theme_after savedTheme prefersDark n))
  /\ darkMode (theme_after None prefersDark 0) = prefersDark
  /\ darkMode (theme_after (Some "") prefersDark 0) = prefersDark.
Proof.
  split; [| by destruct prefersDark].
  intros Hn.
  destruct (toggled_theme savedTheme prefersDark n Hn) as [-> | ->];
    by destruct prefersDark'.
Qed.

Lemma theme_survives_reload_witness :
  0 < 1
  /\ darkMode (theme_after (saved_theme (theme_after None false 1)) false 0) = true.
Proof.
  assert (Hn : 0 < 1) by lia.
  destruct (theme_survives_reload None false false 1) as [Hr _].
  split; [exact Hn | exact (Hr Hn)].
Defined.

(** ** Annotations, again *)

Lemma imap_at_out (f : ChatMsg -> ChatMsg) (i : nat) (l : list ChatMsg) :
  length l <= i -> imap (fun j m => if Nat.eqb j i then f m else m) l = l.
Proof.
  intros Hi. apply list_eq. intros j. rewrite list_lookup_imap.
  destruct (l !! j) as [m |] eqn:Hj; [| done]. cbn.
  apply lookup_lt_Some in Hj.
  by replace (Nat.eqb j i) with false by (symmetry; apply Nat.eqb_neq; lia).
Qed.

(** X16. With an index that is not one of the history, [toggleBookmark] changes
    nothing at all, and [addReaction] leaves every message as it is (it only
    closes the popup). *)
Theorem annotation_out_of_range (st : State) (i : nat) (emoji : string) :
  length (history st) <= i ->
  toggleBookmark i st = st
  /\ addReaction i emoji st = setShowReactionPopup None st.
Proof.
  intros Hi. unfold toggleBookmark, addReaction. destruct st. cbn in *.
  by rewrite !imap_at_out.
Qed.

Lemma annotation_out_of_range_witness :
  length (history annotated_state) <= 2
  /\ toggleBookmark 2 annotated_state = annotated_state
  /\ history (addReaction 2 "👍" annotated_state) = history annotated_state.
Proof.
  assert (Hi : length (history annotated_state) <= 2) by (cbn; lia).
  destruct (annotation_out_of_range annotated_state 2 "👍" Hi) as [Hb Hr].
  split; [exact Hi |]. split; [exact Hb |]. rewrite Hr. reflexivity.
Defined.

(** X17. Toggling the bookmark of a message twice gives back the flag it had,
    as a truth value, and leaves everything else of every message as it was;
    a message whose flag was set (true or false) is exactly as before. *)
Theorem toggleBookmark_twice (st : State) (i j : nat) (m : ChatMsg) :
  history st !! j = Some m ->
  exists m' : ChatMsg,
    history (toggleBookmark i (toggleBookmark i st)) !! j = Some m'
    /\ role m' = role m /\ content m' = content m /\ msg_id m' = msg_id m
    /\ reactions m' = reactions m
    /\ default false (bookmarked m') = default false (bookmarked m)
    /\ (is_Some (bookmarked m) -> m' = m).
Proof.
  intros Hj. rewrite !history_toggleBookmark, !list_lookup_imap, Hj. cbn.
  destruct (Nat.eqb j i).
  - eexists. split; [reflexivity |]. destruct m as [r c mid rs [[] |]]; cbn;
      repeat split; try done; by intros [? [=]].
  - exists m. repeat split.
Qed.

Lemma toggleBookmark_twice_witness :
  history annotated_state !! 1
  = Some (mkChatMsg assistant "hello" (Some 2%Z) (Some ["👍"]) (Some true))
  /\ history (toggleBookmark 1 (toggleBookmark 1 annotated_state)) !! 1
     = Some (mkChatMsg assistant "hello" (Some 2%Z) (Some ["👍"]) (Some true)).
Proof.
  assert (Hj : history annotated_state !! 1
               = Some (mkChatMsg assistant "hello" (Some 2%Z) (Some ["👍"]) (Some true)))
    by reflexivity.
  destruct (toggleBookmark_twice annotated_state 1 1 _ Hj)
    as (m' & Hm' & _ & _ & _ & _ & _ & Hsame).
  split; [exact Hj |]. rewrite Hm'. f_equal. apply Hsame. by eexists.
Defined.

Lemma filter_ne_absent (emoji : string) (l : list string) :
  emoji ∉ l -> List.filter (fun r => negb (String.eqb r emoji)) l = l.
Proof.
  induction l as [| x l IH]; [done |]. intros Hnot.
  apply not_elem_of_cons in Hnot as [Hne Hnot]. cbn.
  replace (String.eqb x emoji) with false
    by (symmetry; apply String.eqb_neq; congruence).
  cbn. by rewrite IH.
Qed.

Lemma react_react (emoji : string) (m : ChatMsg) :
  emoji ∉ default [] (reactions m) ->
  default [] (reactions (react emoji (react emoji m))) = default [] (reactions m).
Proof.
  intros Hnot. unfold react at 2.
  replace (includes emoji (default [] (reactions m))) with false.
  2:{ symmetry. apply not_true_is_false. intros H.
      by apply includes_elem_of in H. }
  unfold react. cbn [reactions with_reactions default from_option id].
  replace (includes emoji (default [] (reactions m) ++ [emoji])) with true.
  2:{ symmetry. apply includes_elem_of, elem_of_app. right.
      by apply list_elem_of_singleton. }
  rewrite List.filter_app, (filter_ne_absent _ _ Hnot). cbn.
  rewrite String.eqb_refl. cbn. apply app_nil_r.
Qed.

(** X18. Adding a reaction and taking it away again: when the emoji is not among
    the reactions of message [i], two calls of [addReaction i emoji] leave the
    reactions of that message, and every other field of it, as they were. *)
Theorem addReaction_twice (st : State) (i : nat) (emoji : string) (m : ChatMsg) :
  history st !! i = Some m ->
  emoji ∉ default [] (reactions m) ->
  exists m' : ChatMsg,
    history (addReaction i emoji (addReaction i emoji st)) !! i = Some m'
    /\ default [] (reactions m') = default [] (reactions m)
    /\ role m' = role m /\ content m' = content m /\ msg_id m' = msg_id m
    /\ bookmarked m' = bookmarked m.
Proof.
  intros Hi Hnot. exists (react emoji (react emoji m)).
  rewrite !history_addReaction, !list_lookup_imap, Hi. cbn. rewrite Nat.eqb_refl.
  split; [done |]. split; [by apply react_react | done].
Qed.

Lemma addReaction_twice_witness :
  history annotated_state !! 1
  = Some (mkChatMsg assistant "hello" (Some 2%Z) (Some ["👍"]) (Some true))
  /\ ("💡" ∉ ["👍"])
  /\ exists m' : ChatMsg,
       history (addReaction 1 "💡" (addReaction 1 "💡" annotated_state)) !! 1 = Some m'
       /\ default [] (reactions m') = ["👍"].
Proof.
  assert (Hj : history annotated_state !! 1
               = Some (mkChatMsg assistant "hello" (Some 2%Z) (Some ["👍"]) (Some true)))
    by reflexivity.
  assert (Hnot : "💡" ∉ ["👍"]).
  { intros Hin. apply list_elem_of_singleton in Hin. discriminate. }
  destruct (addReaction_twice annotated_state 1 "💡" _ Hj Hnot)
    as (m' & Hm' & Hr & _).
  split; [exact Hj |]. split; [exact Hnot |]. exists m'. by split.
Defined.

(** ** The sidebar *)

Lemma act_sessions (a : Action) (st : State) : sessions (act a st) = sessions st.
Proof.
  destruct a; cbn [act]; unfold startListening, stopListening, onresult;
    by_cases_on_state.
Qed.

Lemma resume_sessions (t : Task) (r : Reply) (w w' : World) :
  resume t r w = Some w' ->
  sessions (ui w') = sessions (ui w)
  \/ exists k code l,
       t = SessionsPending k /\ r = SessionsReply (Response code (inr l))
       /\ ok code = true /\ sessions (ui w') = default [] l.
Proof.
  destruct t, r; cbn [resume]; intros [= <-];
    try (left;
         unfold sendChat_resume, sendChat_voice, loadConfig_resume,
           loadSession_resume, deleteSession_resume, sendChat_catch,
           loadSessions, loadSessions_from;
         by_cases_on_state; fail).
  destruct r as [e | code [e | l]]; cbn [loadSessions_resume];
    try (left; unfold deleteSession_finish; by_cases_on_state; fail).
  destruct (ok code) eqn:Hok;
    [| left; unfold deleteSession_finish; by_cases_on_state].
  right. exists awaiting, code, l. repeat split; [done |].
  unfold deleteSession_finish. by_cases_on_state.
Qed.

(** X19. The sidebar list changes only when a fetch of the session list is
    answered well, and then it becomes the list of the answer (the empty list
    when the answer has none): no action of the user changes it, not even a
    deletion before its list is fetched again. *)
Theorem sidebar_changes_by_network_only (e : Event) (w : World) :
  sessions (ui (step e w)) <> sessions (ui w) ->
  exists n k code l,
    e = Receive n (SessionsReply (Response code (inr l)))
    /\ tasks w !! n = Some (SessionsPending k)
    /\ ok code = true
    /\ sessions (ui (step e w)) = default [] l.
Proof.
  intros Hne.
  destruct (step_shape e w)
    as [(a & _ & He) | [He | [[sid He] | [[sid He] | (n & r & -> & He)]]]];
    rewrite He in Hne |- *.
  - destruct Hne. cbn [on_ui ui]. apply act_sessions.
  - destruct Hne. apply sendChat_cells.
  - by destruct Hne.
  - by destruct Hne.
  - destruct (deliver_shape n r w) as [Hsame | (t & Hn & Hr)];
      [by rewrite Hsame in Hne |].
    destruct (resume_sessions _ _ _ _ Hr)
      as [Hsame | (k & code & l & -> & -> & Hok & Hs)]; [by destruct Hne |].
    by exists n, k, code, l.
Qed.

Lemma sidebar_changes_by_network_only_witness :
  let e := Receive 1 (SessionsReply (store_list [session7])) in
  sessions (ui (step e (mount false))) <> sessions (ui (mount false))
  /\ sessions (ui (step e (mount false))) = [session7].
Proof.
  intros e.
  assert (Hne : sessions (ui (step e (mount false))) <> sessions (ui (mount false)))
    by (vm_compute; discriminate).
  destruct (sidebar_changes_by_network_only e (mount false) Hne)
    as (n & k & code & l & He & _ & _ & Hs).
  split; [exact Hne |]. injection He as _ _ <-. exact Hs.
Defined.

(** ** What the messages say *)

Lemma texts_imap (g : ChatMsg -> ChatMsg) (i : nat) (h : list ChatMsg) :
  (forall m, role (g m) = role m /\ content (g m) = content m) ->
  texts (imap (fun j m => if Nat.eqb j i then g m else m) h) = texts h.
Proof.
  intros Hg. unfold texts. apply list_eq. intros j.
  rewrite !list_lookup_fmap, list_lookup_imap.
  destruct (h !! j) as [m |]; [| done]. cbn.
  destruct (Nat.eqb j i); [| done]. by destruct (Hg m) as [-> ->].
Qed.

Lemma act_texts (a : Action) (st : State) :
  texts (history (act a st)) = texts (history st) \/ history (act a st) = [].
Proof.
  destruct a; cbn [act];
    try (left; f_equal; unfold startListening, stopListening, onresult;
         by_cases_on_state; fail).
  - right. by destruct st.
  - right. by destruct st.
  - left. rewrite history_toggleBookmark. by apply texts_imap.
  - left. rewrite history_addReaction. by apply texts_imap.
Qed.

Lemma resume_texts (t : Task) (r : Reply) (w w' : World) :
  resume t r w = Some w' ->
  texts (history (ui w)) `prefix_of` texts (history (ui w'))
  \/ history (ui w') = []
  \/ exists l, history (ui w') = map of_stored l.
Proof.
  destruct t, r; cbn [resume]; intros [= <-];
    unfold sendChat_resume, sendChat_voice, loadConfig_resume, loadSessions_resume,
      deleteSession_finish, loadSession_resume, deleteSession_resume, sendChat_catch,
      loadSessions, loadSessions_from;
    by_cases_on_state;
    first [ by left
          | left; unfold texts; rewrite fmap_app; by apply prefix_app_r
          | by right; left
          | right; right; by eexists ].
Qed.

(** X20. No step rewrites what a message says: after any event, the roles and
    contents of the history before are still there, in order, at the head of
    the history (with messages possibly appended); or else the conversation
    has been replaced as a whole, by the empty one or by one loaded from the
    store. *)
Theorem messages_never_rewritten (e : Event) (w : World) :
  texts (history (ui w)) `prefix_of` texts (history (ui (step e w)))
  \/ history (ui (step e w)) = []
  \/ exists l, history (ui (step e w)) = map of_stored l.
Proof.
  destruct (step_shape e w)
    as [(a & _ & ->) | [-> | [[sid ->] | [[sid ->] | (n & r & _ & ->)]]]].
  - cbn [on_ui ui]. destruct (act_texts a (ui w)) as [-> | ->]; auto.
  - left. unfold sendChat. destruct (negb _); [done |].
    destruct w as [[] ? ?]. cbn. unfold texts. rewrite fmap_app.
    by apply prefix_app_r.
  - by left.
  - by left.
  - destruct (deliver_shape n r w) as [-> | (t & _ & Hr)]; [by left |].
    apply (resume_texts _ _ _ _ Hr).
Qed.
